(** * Crypto tracker bot: market-data client, chart renderer and dispatcher

    A shallow embedding of [parser.py] (the HTTP client functions and the
    chart generator) and [bot.py] (the Telegram handlers), followed by the
    properties of the specification that concern them.

    Conventions of the embedding.
    - A Python [str] is a [string]; [lower], [upper] and [title] act on the
      ASCII letters and leave every other byte alone: they are Python's on
      ASCII text, which is what the API's identifiers, names and symbols
      are, and they differ from Python's on letters outside ASCII.
    - A parsed JSON body is a [json] value; a [dict] is the list of its
      items in insertion order.
    - A Python computation that may raise is a value of [res]; one that
      also talks to the outside world is a value of [io], which pairs the
      events it produced with its outcome.
    - [context.user_data] is a finite map from keys to strings.
    - [print] and [logger] calls are left out: they write to the console
      and to the log only. *)

From Stdlib Require Import ZArith QArith Ascii String List Lia.
From Stdlib.Strings Require Import Byte.
From stdpp Require Import gmap strings.

Local Open Scope string_scope.
Local Open Scope Z_scope.
Local Open Scope list_scope.
Local Set Warnings "-register-all".

(** ** Python strings *)

Module Str.

Definition is_upper (c : ascii) : bool :=
  let n := nat_of_ascii c in ((65 <=? n) && (n <=? 90))%nat.

Definition is_lower (c : ascii) : bool :=
  let n := nat_of_ascii c in ((97 <=? n) && (n <=? 122))%nat.

Definition to_lower (c : ascii) : ascii :=
  if is_upper c then ascii_of_nat (nat_of_ascii c + 32) else c.

Definition to_upper (c : ascii) : ascii :=
  if is_lower c then ascii_of_nat (nat_of_ascii c - 32) else c.

(** [s.lower()] and [s.upper()]. *)
Fixpoint lower (s : string) : string :=
  match s with
  | EmptyString => EmptyString
  | String c t => String (to_lower c) (lower t)
  end.

Fixpoint upper (s : string) : string :=
  match s with
  | EmptyString => EmptyString
  | String c t => String (to_upper c) (upper t)
  end.

(** [s.title()]: a letter that follows a letter is lowered, a letter that
    does not is raised; [cased] is CPython's [previous_is_cased]. *)
Fixpoint title_from (cased : bool) (s : string) : string :=
  match s with
  | EmptyString => EmptyString
  | String c t =>
      if is_lower c then
        String (if cased then c else to_upper c) (title_from true t)
      else if is_upper c then
        String (if cased then to_lower c else c) (title_from true t)
      else String c (title_from false t)
  end.

Definition title (s : string) : string := title_from false s.

(** [needle in hay] on two strings. *)
Fixpoint contains (needle hay : string) : bool :=
  String.prefix needle hay ||
  match hay with
  | EmptyString => false
  | String _ t => contains needle t
  end.

(** [sep.join(parts)]. *)
Fixpoint join (sep : string) (parts : list string) : string :=
  match parts with
  | [] => EmptyString
  | [p] => p
  | p :: rest => p +:+ sep +:+ join sep rest
  end.

(** [str(n)] for an [int]. *)
Definition digit (d : Z) : ascii := ascii_of_nat (48 + Z.to_nat d).

Fixpoint digits_fuel (fuel : nat) (n : Z) (acc : string) : string :=
  match fuel with
  | O => acc
  | S fuel' =>
      let acc' := String (digit (n mod 10)) acc in
      if n <? 10 then acc' else digits_fuel fuel' (n / 10) acc'
  end.

Definition of_nonneg (n : Z) : string :=
  digits_fuel (S (Z.to_nat (Z.log2 n))) n EmptyString.

Definition of_int (n : Z) : string :=
  if n <? 0 then String "-" (of_nonneg (- n)) else of_nonneg n.

End Str.

(** ** Parsed JSON and the Python operations the code applies to it *)

(** A JSON number after [json.loads]: an [int], or a [float] carried by the
    rational it equals. *)
Inductive number :=
| PyInt (z : Z)
| PyFloat (q : Q).

Definition number_value (n : number) : Q :=
  match n with
  | PyInt z => inject_Z z
  | PyFloat q => q
  end.

Inductive json :=
| JNull
| JBool (b : bool)
| JNum (n : number)
| JStr (s : string)
| JArr (elems : list json)
| JObj (items : list (string * json)).

(** The exceptions that can arise in the two modules. [RequestException]
    stands for itself and all its subclasses ([ConnectionError], [Timeout],
    [HTTPError], requests' [JSONDecodeError]); the others are not
    subclasses of it. [ValueError] and [RecursionError] are what the JSON
    parser raises by itself, and [ValueError] also stands for what a
    plotting step raises. *)
Inductive exn :=
| RequestException
| KeyError
| TypeError
| AttributeError
| IndexError
| ValueError
| RecursionError.

(** *** Computations that may raise *)

Inductive res (A : Type) :=
| Ret (a : A)
| Raise (e : exn).
Arguments Ret {A} a.
Arguments Raise {A} e.

Definition res_bind {A B} (r : res A) (k : A -> res B) : res B :=
  match r with
  | Ret a => k a
  | Raise e => Raise e
  end.

Declare Scope res_scope.
Delimit Scope res_scope with res.
Notation "x <- r ;; k" := (res_bind r (fun x => k))
  (at level 100, r at next level, right associativity) : res_scope.

Fixpoint res_map {A B} (f : A -> res B) (l : list A) : res (list B) :=
  match l with
  | [] => Ret []
  | a :: t =>
      (b <- f a ;;
       bs <- res_map f t ;;
       Ret (b :: bs))%res
  end.

Module Py.

Fixpoint dict_get (items : list (string * json)) (k : string) : option json :=
  match items with
  | [] => None
  | (k', v) :: rest => if String.eqb k' k then Some v else dict_get rest k
  end.

Definition has_key (items : list (string * json)) (k : string) : bool :=
  match dict_get items k with Some _ => true | None => false end.

Definition is_str (s : string) (v : json) : bool :=
  match v with JStr s' => String.eqb s' s | _ => false end.

(** [k in c] for a string [k]: key membership in a dict, element
    membership in a list, substring test in a string, [TypeError] on
    anything else. *)
Definition contains (k : string) (c : json) : res bool :=
  match c with
  | JObj items => Ret (has_key items k)
  | JArr elems => Ret (existsb (is_str k) elems)
  | JStr s => Ret (Str.contains k s)
  | JNull | JBool _ | JNum _ => Raise TypeError
  end.

(** [c[k]] for a string [k]: only a dict can be indexed by a string. *)
Definition getitem (c : json) (k : string) : res json :=
  match c with
  | JObj items =>
      match dict_get items k with
      | Some v => Ret v
      | None => Raise KeyError
      end
  | _ => Raise TypeError
  end.

Fixpoint chars (s : string) : list json :=
  match s with
  | EmptyString => []
  | String c t => JStr (String c EmptyString) :: chars t
  end.

(** [for x in c]: the elements of a list, the keys of a dict, the
    characters of a string. *)
Definition iter (c : json) : res (list json) :=
  match c with
  | JArr elems => Ret elems
  | JObj items => Ret (map (fun kv => JStr (fst kv)) items)
  | JStr s => Ret (chars s)
  | JNull | JBool _ | JNum _ => Raise TypeError
  end.

(** [v.upper()] and [v.title()] exist on strings only. *)
Definition upper (v : json) : res string :=
  match v with
  | JStr s => Ret (Str.upper s)
  | _ => Raise AttributeError
  end.

Definition title (v : json) : res string :=
  match v with
  | JStr s => Ret (Str.title s)
  | _ => Raise AttributeError
  end.

End Py.

(** ** What lies outside the two modules *)

(** An in-memory [io.BytesIO]: its contents and the stream position. *)
Record BytesIO := { getvalue : list byte; tell : nat }.

(** What [ax.plot] and the formatting calls leave in the figure. *)
Record figure := {
  line_color : string;
  fig_title : string;
  ylabel : string;
  points : list (Z * Q)
}.

(** The library routines whose output the code only passes on: the text
    Python prints for a float and for a list or dict, the PNG chunks
    matplotlib writes after the signature, whether one of the plotting,
    layout and save steps raises on a figure (as [tight_layout] does on a
    title that mathtext cannot parse, or on prices that overflow the axis),
    and the outcome of the plotting steps on a [prices] value that is not a
    list of [[int, number]] rows ([None] when one of them raises). *)
Class PyRuntime := {
  float_repr : Q -> string;
  container_repr : json -> string;
  png_chunks : figure -> list byte;
  plot_fails : figure -> bool;
  plot_foreign : string -> json -> option BytesIO
}.

(** The two ways in which the JSON parser gives up on a text with an
    exception of its own, which requests does not wrap: an integer literal
    longer than Python's limit of digits, and a nesting deeper than the
    recursion limit. *)
Inductive parse_failure :=
| IntegerTooLong
| NestingTooDeep.

Definition parse_exn (why : parse_failure) : exn :=
  match why with
  | IntegerTooLong => ValueError
  | NestingTooDeep => RecursionError
  end.

(** The answer of the API to one GET: no response at all (connection
    error, timeout); a response with its status code and its body, [None]
    when the body is not JSON; or a response with a body on which the
    parser gives up as above. *)
Inductive http_outcome :=
| ConnectionFailed
| Response (status : Z) (body : option json)
| Unreadable (status : Z) (why : parse_failure).

Inductive event :=
| HttpGet (url : string)
| ReplyText (text : string)
| ReplyKeyboard (text : string) (rows : list (list string))
| ReplyPhoto (photo : BytesIO) (caption : string).

(** *** Computations that raise and leave a trace of events *)

Definition io (A : Type) : Type := list event * res A.

Definition io_ret {A} (a : A) : io A := ([], Ret a).
Definition io_raise {A} (e : exn) : io A := ([], Raise e).
Definition io_emit (ev : event) : io unit := ([ev], Ret tt).
Definition io_lift {A} (r : res A) : io A := ([], r).

Definition io_bind {A B} (m : io A) (k : A -> io B) : io B :=
  match m with
  | (tr, Ret a) => let '(tr', r) := k a in (tr ++ tr', r)
  | (tr, Raise e) => (tr, Raise e)
  end.

Declare Scope io_scope.
Delimit Scope io_scope with io.
Notation "x <- m ;; k" := (io_bind m (fun x => k))
  (at level 100, m at next level, right associativity) : io_scope.
Notation "m ;;; k" := (io_bind m (fun _ => k))
  (at level 100, right associativity) : io_scope.

(** [try: body except requests.exceptions.RequestException: return v]. *)
Definition except_request {A} (body : io A) (v : A) : io A :=
  match body with
  | (tr, Raise RequestException) => (tr, Ret v)
  | other => other
  end.

(** [try: body except Exception: return v]. *)
Definition except_any {A} (body : io A) (v : A) : io A :=
  match body with
  | (tr, Raise _) => (tr, Ret v)
  | other => other
  end.

(** ** [parser.py] *)

Definition newline : string := String (ascii_of_nat 10) EmptyString.

Section Parser.

Context `{PyRuntime}.

(** The answers of the API, by URL. *)
Variable http : string -> http_outcome.

(** [str(v)], which is also what an f-string prints for [v]. *)
Definition py_str (v : json) : string :=
  match v with
  | JNull => "None"
  | JBool true => "True"
  | JBool false => "False"
  | JNum (PyInt z) => Str.of_int z
  | JNum (PyFloat q) => float_repr q
  | JStr s => s
  | JArr _ | JObj _ => container_repr v
  end.

(** [requests.get(url)] raises when no response arrives. *)
Definition requests_get (url : string) : io http_outcome :=
  (io_emit (HttpGet url) ;;;
   match http url with
   | ConnectionFailed => io_raise RequestException
   | response => io_ret response
   end)%io.

(** [response.raise_for_status()] raises [HTTPError] on a 4xx or 5xx
    status. *)
Definition raise_for_status (response : http_outcome) : res unit :=
  match response with
  | Response status _ | Unreadable status _ =>
      if (400 <=? status) && (status <? 600) then Raise RequestException
      else Ret tt
  | ConnectionFailed => Raise RequestException
  end.

(** [response.json()] raises requests' [JSONDecodeError] on a body that
    is not JSON, and lets through what the parser raises by itself. *)
Definition response_json (response : http_outcome) : res json :=
  match response with
  | Response _ (Some data) => Ret data
  | Unreadable _ why => Raise (parse_exn why)
  | _ => Raise RequestException
  end.

(** The first three lines of every [try] block. *)
Definition fetch (url : string) : io json :=
  (response <- requests_get url ;;
   _ <- io_lift (raise_for_status response) ;;
   io_lift (response_json response))%io.

Definition price_url (crypto_name : string) : string :=
  "https://api.coingecko.com/api/v3/simple/price?ids=" +:+ crypto_name
    +:+ "&vs_currencies=usd".

Definition markets_url : string :=
  "https://api.coingecko.com/api/v3/coins/markets?vs_currency=usd&order=market_cap_desc&per_page=5&page=1".

Definition chart_url (crypto_id : string) : string :=
  "https://api.coingecko.com/api/v3/coins/" +:+ crypto_id
    +:+ "/market_chart?vs_currency=usd&days=1".

Definition price_not_available : string :=
  "Price data not available at this time".

Definition service_unavailable : string :=
  "Service temporarily unavailable - please try again later".

Definition top5_unavailable : string :=
  "Couldn't retrieve top cryptocurrencies - please try again later".

(** [crypto_name in data and 'usd' in data[crypto_name]]; the right
    operand is evaluated only when the left one holds. *)
Definition has_usd_price (crypto_name : string) (data : json) : res bool :=
  (listed <- Py.contains crypto_name data ;;
   if listed : bool then
     entry <- Py.getitem data crypto_name ;;
     Py.contains "usd" entry
   else Ret false)%res.

Definition price_text (crypto_name : string) (data : json) : res string :=
  (found <- has_usd_price crypto_name data ;;
   if found : bool then
     entry <- Py.getitem data crypto_name ;;
     usd <- Py.getitem entry "usd" ;;
     Ret ("$" +:+ py_str usd)
   else Ret price_not_available)%res.

Definition get_crypto_price (crypto_name : string) : io string :=
  except_request
    (data <- fetch (price_url crypto_name) ;;
     io_lift (price_text crypto_name data))%io
    service_unavailable.

(** One iteration of the loop of [get_top_5_crypto_prices]. *)
Definition price_line (crypto : json) : res string :=
  (name <- Py.getitem crypto "name" ;;
   symbol <- Py.getitem crypto "symbol" ;;
   SYMBOL <- Py.upper symbol ;;
   price <- Py.getitem crypto "current_price" ;;
   Ret (py_str name +:+ " (" +:+ SYMBOL +:+ "): $" +:+ py_str price))%res.

(** The list [prices] the loop builds. *)
Definition price_lines (data : json) : res (list string) :=
  (cryptos <- Py.iter data ;;
   res_map price_line cryptos)%res.

Definition get_top_5_crypto_prices : io string :=
  except_request
    (data <- fetch markets_url ;;
     prices <- io_lift (price_lines data) ;;
     io_ret (Str.join newline prices))%io
    top5_unavailable.

Definition id_list (data : json) : res (list json) :=
  (cryptos <- Py.iter data ;;
   res_map (fun crypto => Py.getitem crypto "id") cryptos)%res.

Definition get_top_5_crypto_list : io (list json) :=
  except_request
    (data <- fetch markets_url ;;
     io_lift (id_list data))%io
    [].

(** *** The chart *)

(** The eight bytes every PNG stream starts with. *)
Definition png_signature : list byte :=
  [x89; x50; x4e; x47; x0d; x0a; x1a; x0a].

Definition BytesIO_new : BytesIO := {| getvalue := []; tell := 0 |}.

Definition BytesIO_write (buf : BytesIO) (data : list byte) : BytesIO :=
  {| getvalue := take (tell buf) (getvalue buf) ++ data
                   ++ drop (tell buf + length data) (getvalue buf);
     tell := tell buf + length data |}.

Definition BytesIO_seek (buf : BytesIO) (pos : nat) : BytesIO :=
  {| getvalue := getvalue buf; tell := pos |}.

(** [plt.savefig(buf, format='png')]. *)
Definition savefig (buf : BytesIO) (fig : figure) : BytesIO :=
  BytesIO_write buf (png_signature ++ png_chunks fig).

(** The rows on which the plotting steps are modelled: a millisecond
    count that fits a nanosecond [datetime64], and a price the float64
    column holds exactly. *)
Definition datetime64_ms_max : Z := 9223372036854.

Definition float64_exact (n : number) : bool :=
  match n with
  | PyInt z => Z.abs z <=? 2 ^ 53
  | PyFloat _ => true
  end.

Definition price_row (row : json) : option (Z * Q) :=
  match row with
  | JArr [JNum (PyInt t); JNum p] =>
      if (Z.abs t <=? datetime64_ms_max) && float64_exact p
      then Some (t, number_value p) else None
  | _ => None
  end.

Fixpoint price_rows (rows : list json) : option (list (Z * Q)) :=
  match rows with
  | [] => Some []
  | row :: rest =>
      match price_row row, price_rows rest with
      | Some r, Some rs => Some (r :: rs)
      | _, _ => None
      end
  end.

(** [pd.DataFrame(prices, columns=['timestamp', 'price'])] followed by
    [pd.to_datetime(..., unit='ms')], on the rows above. *)
Definition DataFrame (prices : json) : option (list (Z * Q)) :=
  match prices with
  | JArr rows => price_rows rows
  | _ => None
  end.

(** [col.iloc[0]] and [col.iloc[-1]]. *)
Definition iloc_first {A} (col : list A) : res A :=
  match col with
  | [] => Raise IndexError
  | a :: _ => Ret a
  end.

Definition iloc_last {A} (col : list A) : res A :=
  match last col with
  | None => Raise IndexError
  | Some a => Ret a
  end.

Definition green : string := "#26a69a".
Definition red : string := "#ef5350".

(** Lines 24 to 46: the colour chosen and the figure to draw. *)
Definition draw (crypto_id : string) (df : list (Z * Q)) : res figure :=
  (start_price <- iloc_first (map snd df) ;;
   end_price <- iloc_last (map snd df) ;;
   let line_color := if Qle_bool start_price end_price then green else red in
   Ret {| line_color := line_color;
          fig_title := Str.title crypto_id +:+ " Price (Last 24h)";
          ylabel := "Price (USD)";
          points := df |})%res.

(** Lines 29 to 53: the figure plotted, laid out and saved, and the buffer
    rewound; any of the matplotlib calls may raise. *)
Definition render (crypto_id : string) (df : list (Z * Q)) : res BytesIO :=
  (fig <- draw crypto_id df ;;
   if plot_fails fig then Raise ValueError
   else
     let buf := savefig BytesIO_new fig in
     Ret (BytesIO_seek buf 0))%res.

Definition chart_of (crypto_id : string) (data : json) : res (option BytesIO) :=
  (has_prices <- Py.contains "prices" data ;;
   if negb has_prices then Ret None
   else
     prices <- Py.getitem data "prices" ;;
     match DataFrame prices with
     | Some df => buf <- render crypto_id df ;; Ret (Some buf)
     | None => Ret (plot_foreign crypto_id prices)
     end)%res.

Definition generate_price_chart (crypto_id : string) : io (option BytesIO) :=
  except_any
    (except_request
       (data <- fetch (chart_url crypto_id) ;;
        io_lift (chart_of crypto_id data))%io
       None)
    None.

End Parser.

(** ** [bot.py] *)

(** A handler leaves the events it produced, returns or raises, and leaves
    the user's [user_data]. Assignments to [user_data] made before a raise
    stay. *)
Definition handled : Type := io unit * gmap string string.

Inductive update :=
| Command (name : string)
| Text (text : string).

Section Bot.

Context `{PyRuntime}.
Variable http : string -> http_outcome.

Definition welcome : string :=
  "🚀 *Crypto Tracker Bot* 🚀" +:+ newline +:+ newline +:+
  "📈 Get real-time cryptocurrency prices and charts including:" +:+ newline +:+
  "  • Bitcoin, Ethereum, Binance Coin" +:+ newline +:+
  "  • Toncoin and other top cryptos" +:+ newline +:+ newline +:+
  "💡 *Available commands:*" +:+ newline +:+
  "  /price - Check cryptocurrency price" +:+ newline +:+
  "  /chart - Get a 24h price chart" +:+ newline +:+
  "  /top5 - View top 5 by market cap" +:+ newline +:+ newline +:+
  "Tap /price to check Toncoin price now!".

Definition start (user_data : gmap string string) : handled :=
  (io_emit (ReplyText welcome), user_data).

Definition fallback_list : list json :=
  [JStr "bitcoin"; JStr "ethereum"; JStr "binancecoin"; JStr "ripple";
   JStr "cardano"].

Definition select_prompt : string :=
  "📈 Please select a cryptocurrency from the list below:".

(** Lines 37 to 60 of [ask_for_crypto]: the list, the extra entry, the
    keyboard and the reply. *)
Definition send_keyboard : io unit :=
  (crypto_list <- except_any (get_top_5_crypto_list http) fallback_list ;;
   let crypto_list := crypto_list ++ [JStr "Toncoin"] in
   labels <- io_lift (res_map Py.title crypto_list) ;;
   let keyboard_rows := map (fun label => [label]) labels in
   io_emit (ReplyKeyboard select_prompt keyboard_rows))%io.

Definition ask_for_crypto (intent : string)
    (user_data : gmap string string) : handled :=
  let user_data := <["intent" := intent]> user_data in
  (send_keyboard, user_data).

Definition price_command (user_data : gmap string string) : handled :=
  ask_for_crypto "get_price" user_data.

Definition chart_command (user_data : gmap string string) : handled :=
  ask_for_crypto "get_chart" user_data.

(** Line 81. *)
Definition crypto_id_of (crypto_name_raw : string) : string :=
  let crypto_name := Str.lower crypto_name_raw in
  if String.eqb crypto_name "toncoin" then "the-open-network" else crypto_name.

(** Line 87. *)
Definition looks_failed (price_info : string) : bool :=
  Str.contains "error" (Str.lower price_info)
  || Str.contains "could not find" (Str.lower price_info)
  || Str.contains "not available" (Str.lower price_info).

Definition price_failed (crypto_name_raw : string) : string :=
  "❌ Sorry, I couldn't retrieve the " +:+ crypto_name_raw
    +:+ " price at the moment. Please try again later.".

Definition chart_failed (crypto_name_raw : string) : string :=
  "❌ Sorry, I couldn't generate the chart for " +:+ crypto_name_raw
    +:+ " at the moment. Please try again later.".

Definition price_reply (crypto_name_raw price_info : string) : string :=
  "💰 Current " +:+ crypto_name_raw +:+ " price: " +:+ price_info.

Definition checking (crypto_name_raw : string) : event :=
  ReplyText ("🔍 Checking current " +:+ crypto_name_raw +:+ " price...").

Definition generating (crypto_name_raw : string) : event :=
  ReplyText ("🎨 Generating 24h chart for " +:+ crypto_name_raw +:+ "...").

Definition chart_caption (crypto_name_raw : string) : string :=
  "📈 24-hour price chart for " +:+ crypto_name_raw.

(** Lines 83 to 102: the two branches on the intent. *)
Definition answer (intent crypto_name_raw : string) : io unit :=
  let crypto_id := crypto_id_of crypto_name_raw in
  if String.eqb intent "get_price" then
    (io_emit (checking crypto_name_raw) ;;;
     price_info <- get_crypto_price http crypto_id ;;
     if looks_failed price_info
     then io_emit (ReplyText (price_failed crypto_name_raw))
     else io_emit (ReplyText (price_reply crypto_name_raw price_info)))%io
  else if String.eqb intent "get_chart" then
    (io_emit (generating crypto_name_raw) ;;;
     chart_image <- generate_price_chart http crypto_id ;;
     match chart_image with
     | Some photo =>
         io_emit (ReplyPhoto photo (chart_caption crypto_name_raw))
     | None => io_emit (ReplyText (chart_failed crypto_name_raw))
     end)%io
  else io_ret tt.

(** [not intent]: the key is absent or holds the empty string. *)
Definition pending (user_data : gmap string string) : option string :=
  match user_data !! "intent" with
  | Some intent => if String.eqb intent "" then None else Some intent
  | None => None
  end.

Definition crypto_handler (text : string)
    (user_data : gmap string string) : handled :=
  match pending user_data with
  | None => (io_ret tt, user_data)
  | Some intent =>
      match answer intent text with
      | (trace, Ret _) => ((trace, Ret tt), delete "intent" user_data)
      | (trace, Raise e) => ((trace, Raise e), user_data)
      end
  end.

Definition top5 (user_data : gmap string string) : handled :=
  ((io_emit (ReplyText "Fetching the prices of the top 5 cryptocurrencies...") ;;;
    prices_info <- get_top_5_crypto_prices http ;;
    io_emit (ReplyText ("Top 5 cryptocurrencies:" +:+ newline +:+ prices_info)))%io,
   user_data).

(** The handlers registered in [main], in order; a command without a
    handler is dropped. *)
Definition dispatch (upd : update) (user_data : gmap string string) : handled :=
  match upd with
  | Command name =>
      if String.eqb name "start" then start user_data
      else if String.eqb name "price" then price_command user_data
      else if String.eqb name "chart" then chart_command user_data
      else if String.eqb name "top5" then top5 user_data
      else (io_ret tt, user_data)
  | Text text => crypto_handler text user_data
  end.

End Bot.

(** [context.user_data] is the dict of the user the update comes from; a
    user seen for the first time starts with an empty one. *)
Definition user_data_of (store : gmap Z (gmap string string)) (uid : Z)
    : gmap string string :=
  default ∅ (store !! uid).

Definition process_update `{PyRuntime} (http : string -> http_outcome)
    (uid : Z) (upd : update) (store : gmap Z (gmap string string))
    : io unit * gmap Z (gmap string string) :=
  let '(out, user_data) := dispatch http upd (user_data_of store uid) in
  (out, <[uid := user_data]> store).

(** The events and the [http] calls among them. *)
Definition is_http (ev : event) : bool :=
  match ev with HttpGet _ => true | _ => false end.

Definition http_calls (trace : list event) : list event :=
  filter (fun ev => is_http ev = true) trace.

Definition replies (trace : list event) : list event :=
  filter (fun ev => is_http ev = false) trace.

(** ** Vocabulary of the specification *)

(** The three transport failures: no response, an error status, a body
    that is not JSON. Each one raises a [RequestException]. *)
Definition error_status (status : Z) : bool :=
  (400 <=? status) && (status <? 600).

Definition delivered (o : http_outcome) : option json :=
  match o with
  | Response status (Some data) =>
      if error_status status then None else Some data
  | _ => None
  end.

(** What the parser raises by itself on the body, when the status lets the
    body be read. *)
Definition unreadable (o : http_outcome) : option exn :=
  match o with
  | Unreadable status why =>
      if error_status status then None else Some (parse_exn why)
  | _ => None
  end.

Definition transport_failure (o : http_outcome) : bool :=
  match delivered o, unreadable o with
  | None, None => true
  | _, _ => false
  end.

(** The nested USD value of an identifier in a body of the price
    endpoint. *)
Definition usd_value (crypto_name : string) (data : json) : option json :=
  match data with
  | JObj items =>
      match Py.dict_get items crypto_name with
      | Some (JObj fields) => Py.dict_get fields "usd"
      | _ => None
      end
  | _ => None
  end.

(** A body of the price endpoint: an object in which the identifier, when
    it is listed, is mapped to an object. *)
Definition price_body (crypto_name : string) (data : json) : bool :=
  match data with
  | JObj items =>
      match Py.dict_get items crypto_name with
      | None | Some (JObj _) => true
      | Some _ => false
      end
  | _ => false
  end.

(** An answer of the price endpoint: a transport failure, or a body as
    above. *)
Definition price_answer (crypto_name : string) (o : http_outcome) : bool :=
  match delivered o with
  | Some data => price_body crypto_name data
  | None => transport_failure o
  end.

(** A market snapshot as the markets endpoint lists it. *)
Record snapshot := {
  snap_name : json;
  snap_symbol : string;
  snap_price : json
}.

Definition snapshot_of (entry : json) : option snapshot :=
  match entry with
  | JObj items =>
      match Py.dict_get items "name", Py.dict_get items "symbol",
            Py.dict_get items "current_price" with
      | Some name, Some (JStr symbol), Some price =>
          Some {| snap_name := name; snap_symbol := symbol; snap_price := price |}
      | _, _, _ => None
      end
  | _ => None
  end.

Fixpoint snapshots (entries : list json) : option (list snapshot) :=
  match entries with
  | [] => Some []
  | entry :: rest =>
      match snapshot_of entry, snapshots rest with
      | Some s, Some ss => Some (s :: ss)
      | _, _ => None
      end
  end.

(** The line of the listing for one snapshot: [{name} ({SYMBOL}): ${price}]. *)
Definition snapshot_line `{PyRuntime} (s : snapshot) : string :=
  py_str (snap_name s) +:+ " (" +:+ Str.upper (snap_symbol s) +:+ "): $"
    +:+ py_str (snap_price s).

(** Two labels that differ in the case of their ASCII letters only. *)
Fixpoint same_ignoring_case (a b : string) : bool :=
  match a, b with
  | EmptyString, EmptyString => true
  | String x a', String y b' =>
      Ascii.eqb (Str.to_lower x) (Str.to_lower y) && same_ignoring_case a' b'
  | _, _ => false
  end.

(** The identifier the specification assigns to a label. *)
Definition identifier_of_label (label : string) : string :=
  if same_ignoring_case label "Toncoin" then "the-open-network"
  else Str.lower label.

Definition outcome (h : handled) : res unit := snd (fst h).
Definition user_data_after (h : handled) : gmap string string := snd h.
Definition events (h : handled) : list event := fst (fst h).

(** ** Sample runtime and sample answers of the API *)

(** A runtime to evaluate the code on: floats print as a fraction, lists
    and dicts as a placeholder, the PNG body is a single zero byte, and the
    layout fails on a title that holds the empty formula [$$], which
    mathtext rejects. *)
Definition sample_runtime : PyRuntime := {|
  float_repr q := Str.of_int (Qnum q) +:+ "/" +:+ Str.of_int (Zpos (Qden q));
  container_repr _ := "[...]";
  png_chunks _ := [x00];
  plot_fails fig := Str.contains "$$" (fig_title fig);
  plot_foreign _ _ := None
|}.

Definition all_down (url : string) : http_outcome := ConnectionFailed.

Definition always (data : json) (url : string) : http_outcome :=
  Response 200 (Some data).

Definition bitcoin_65000 : json :=
  JObj [("bitcoin", JObj [("usd", JNum (PyInt 65000))])].

Definition market (id name symbol : string) (price : Z) : json :=
  JObj [("id", JStr id); ("symbol", JStr symbol); ("name", JStr name);
        ("current_price", JNum (PyInt price))].

Definition five_markets : json :=
  JArr [market "bitcoin" "Bitcoin" "btc" 65000;
        market "ethereum" "Ethereum" "eth" 3200;
        market "tether" "Tether" "usdt" 1;
        market "binancecoin" "BNB" "bnb" 580;
        market "solana" "Solana" "sol" 150].

Definition six_markets : json :=
  JArr [market "bitcoin" "Bitcoin" "btc" 65000;
        market "ethereum" "Ethereum" "eth" 3200;
        market "tether" "Tether" "usdt" 1;
        market "binancecoin" "BNB" "bnb" 580;
        market "solana" "Solana" "sol" 150;
        market "ripple" "XRP" "xrp" 2].

Definition five_snapshots : list snapshot :=
  [{| snap_name := JStr "Bitcoin"; snap_symbol := "btc"; snap_price := JNum (PyInt 65000) |};
   {| snap_name := JStr "Ethereum"; snap_symbol := "eth"; snap_price := JNum (PyInt 3200) |};
   {| snap_name := JStr "Tether"; snap_symbol := "usdt"; snap_price := JNum (PyInt 1) |};
   {| snap_name := JStr "BNB"; snap_symbol := "bnb"; snap_price := JNum (PyInt 580) |};
   {| snap_name := JStr "Solana"; snap_symbol := "sol"; snap_price := JNum (PyInt 150) |}].

Definition point (t price : Z) : json :=
  JArr [JNum (PyInt t); JNum (PyInt price)].

Definition series (rows : list json) : json := JObj [("prices", JArr rows)].

Definition with_intent (intent : string) : gmap string string :=
  {["intent" := intent]}.

(** ** Runs of the bot and shapes of the markets list *)

(** The [user_data] of one user after a sequence of updates, each handled
    with the answers the API gives at that moment. *)
Fixpoint run `{PyRuntime} (steps : list ((string -> http_outcome) * update))
    (user_data : gmap string string) : gmap string string :=
  match steps with
  | [] => user_data
  | (http, upd) :: rest => run rest (snd (dispatch http upd user_data))
  end.

(** The identifier of an entry of the markets list, when it is a string. *)
Definition entry_id (entry : json) : option string :=
  match entry with
  | JObj items =>
      match Py.dict_get items "id" with
      | Some (JStr id) => Some id
      | _ => None
      end
  | _ => None
  end.

Fixpoint entry_ids (entries : list json) : option (list string) :=
  match entries with
  | [] => Some []
  | entry :: rest =>
      match entry_id entry, entry_ids rest with
      | Some id, Some ids => Some (id :: ids)
      | _, _ => None
      end
  end.

(** A string of ASCII characters, on which [Str.lower], [Str.upper] and
    [Str.title] are Python's [lower], [upper] and [title]. *)
Fixpoint is_ascii (s : string) : bool :=
  match s with
  | EmptyString => true
  | String c t => (nat_of_ascii c <? 128)%nat && is_ascii t
  end.

(** A string without ASCII letters. *)
Fixpoint uncased (s : string) : bool :=
  match s with
  | EmptyString => true
  | String c t => negb (Str.is_lower c) && negb (Str.is_upper c) && uncased t
  end.

(** A string in which an ASCII lower-case letter occurs. *)
Fixpoint has_lower (s : string) : bool :=
  match s with
  | EmptyString => false
  | String c t => Str.is_lower c || has_lower t
  end.

Definition is_string (v : json) : bool :=
  match v with JStr _ => true | _ => false end.

Definition fetching : event :=
  ReplyText "Fetching the prices of the top 5 cryptocurrencies...".

Definition top5_heading : string := "Top 5 cryptocurrencies:" +:+ newline.

(** * Properties *)

Example lower_Toncoin : Str.lower "Toncoin" = "toncoin".
Proof. reflexivity. Qed.

Example title_open_network : Str.title "the-open-network" = "The-Open-Network".
Proof. reflexivity. Qed.

Example of_int_65000 : Str.of_int 65000 = "65000".
Proof. reflexivity. Qed.

Example of_int_negative : Str.of_int (-1203) = "-1203".
Proof. reflexivity. Qed.

Example of_int_zero : Str.of_int 0 = "0".
Proof. reflexivity. Qed.

(** ** Strings *)





Lemma lower_same (a b : string) :
  same_ignoring_case a b = true <-> Str.lower a = Str.lower b.
Proof.
  revert b. induction a as [|x a IH]; intros [|y b]; simpl; try easy.
  rewrite andb_true_iff, Ascii.eqb_eq, IH. split.
  - intros [-> ->]. reflexivity.
  - intros Heq. injection Heq as -> ->. split; reflexivity.
Qed.

(** ** The HTTP round trip *)

Section Properties.

Context `{PyRuntime}.

Lemma fetch_delivered (http : string -> http_outcome) (url : string) :
  fetch http url =
    ([HttpGet url],
     match delivered (http url) with
     | Some data => Ret data
     | None =>
         match unreadable (http url) with
         | Some e => Raise e
         | None => Raise RequestException
         end
     end).
Proof.
  unfold fetch, requests_get, delivered, unreadable, error_status. simpl.
  destruct (http url) as [|status [data|]|status why]; simpl; try reflexivity;
    destruct ((400 <=? status) && (status <? 600)); reflexivity.
Qed.

(** What the parser raises by itself is not a [RequestException]. *)
Lemma unreadable_not_request (o : http_outcome) (e : exn) :
  unreadable o = Some e -> e <> RequestException.
Proof.
  unfold unreadable. destruct o as [| |status why]; try discriminate.
  destruct (error_status status); [discriminate |].
  intros [= <-]. destruct why; discriminate.
Qed.

Lemma transport_failure_fetched (o : http_outcome) :
  transport_failure o = true -> delivered o = None /\ unreadable o = None.
Proof.
  unfold transport_failure.
  destruct (delivered o); [discriminate |].
  destruct (unreadable o); [discriminate | auto].
Qed.

(** Neither lookup inside a body raises a [RequestException]. *)
Lemma price_text_not_request (crypto_name : string) (data : json) :
  price_text crypto_name data <> Raise RequestException.
Proof.
  unfold price_text, has_usd_price.
  destruct data; simpl; try congruence.
  - destruct (Str.contains crypto_name s); simpl; congruence.
  - destruct (existsb _ _); simpl; congruence.
  - unfold Py.has_key.
    destruct (Py.dict_get items crypto_name) as [entry|]; simpl; [|congruence].
    destruct entry; simpl; try congruence.
    + destruct (Str.contains "usd" s); simpl; congruence.
    + destruct (existsb _ _); simpl; congruence.
    + unfold Py.has_key.
      destruct (Py.dict_get items0 "usd"); simpl; congruence.
Qed.

Lemma get_crypto_price_run (http : string -> http_outcome) (crypto_name : string) :
  get_crypto_price http crypto_name =
    ([HttpGet (price_url crypto_name)],
     match delivered (http (price_url crypto_name)) with
     | Some data => price_text crypto_name data
     | None =>
         match unreadable (http (price_url crypto_name)) with
         | Some e => Raise e
         | None => Ret service_unavailable
         end
     end).
Proof.
  unfold get_crypto_price. rewrite fetch_delivered.
  destruct (delivered _) as [data|]; simpl.
  - pose proof (price_text_not_request crypto_name data) as Hne.
    destruct (price_text crypto_name data) as [s|[]]; simpl; congruence.
  - destruct (unreadable _) as [e|] eqn:Hparse; [|reflexivity].
    apply unreadable_not_request in Hparse. destruct e; simpl; congruence.
Qed.

(** On a body of the price endpoint the lookup returns the price when
    the USD value is there and the fixed message when it is not. *)
Lemma price_text_body (crypto_name : string) (data : json) :
  price_body crypto_name data = true ->
  price_text crypto_name data =
    Ret match usd_value crypto_name data with
        | Some usd => "$" +:+ py_str usd
        | None => price_not_available
        end.
Proof.
  unfold price_body, usd_value, price_text, has_usd_price.
  destruct data; try discriminate. simpl. unfold Py.has_key.
  destruct (Py.dict_get items crypto_name) as [entry|]; simpl.
  - destruct entry; try discriminate. intros _. simpl. unfold Py.has_key.
    destruct (Py.dict_get items0 "usd"); reflexivity.
  - reflexivity.
Qed.


(** ** The markets endpoint *)

Lemma res_map_not_request {A B} (f : A -> res B) (l : list A) :
  (forall a, f a <> Raise RequestException) ->
  res_map f l <> Raise RequestException.
Proof.
  intros Hf. induction l as [|a l IH]; simpl; [congruence |].
  specialize (Hf a). destruct (f a) as [b|e]; simpl; [|congruence].
  destruct (res_map f l); simpl; congruence.
Qed.

Lemma getitem_not_request (c : json) (k : string) :
  Py.getitem c k <> Raise RequestException.
Proof.
  destruct c; simpl; try congruence.
  destruct (Py.dict_get items k); congruence.
Qed.

Lemma price_line_not_request (crypto : json) :
  price_line crypto <> Raise RequestException.
Proof.
  unfold price_line.
  pose proof (getitem_not_request crypto "name").
  destruct (Py.getitem crypto "name"); simpl; [|congruence].
  pose proof (getitem_not_request crypto "symbol").
  destruct (Py.getitem crypto "symbol") as [symbol|]; simpl; [|congruence].
  destruct symbol; simpl; try congruence.
  pose proof (getitem_not_request crypto "current_price").
  destruct (Py.getitem crypto "current_price"); simpl; congruence.
Qed.

Lemma iter_then_not_request {B} (data : json) (k : list json -> res B) :
  (forall l, k l <> Raise RequestException) ->
  res_bind (Py.iter data) k <> Raise RequestException.
Proof. intros Hk. destruct data; simpl; try congruence; apply Hk. Qed.

Lemma get_top_5_crypto_prices_run (http : string -> http_outcome) :
  get_top_5_crypto_prices http =
    ([HttpGet markets_url],
     match delivered (http markets_url) with
     | Some data => res_bind (price_lines data)
                      (fun prices => Ret (Str.join newline prices))
     | None =>
         match unreadable (http markets_url) with
         | Some e => Raise e
         | None => Ret top5_unavailable
         end
     end).
Proof.
  unfold get_top_5_crypto_prices. rewrite fetch_delivered.
  destruct (delivered _) as [data|]; simpl.
  - assert (price_lines data <> Raise RequestException) as Hne.
    { apply iter_then_not_request. intros l.
      apply res_map_not_request, price_line_not_request. }
    destruct (price_lines data) as [lines|[]]; simpl; congruence.
  - destruct (unreadable _) as [e|] eqn:Hparse; [|reflexivity].
    apply unreadable_not_request in Hparse. destruct e; simpl; congruence.
Qed.

Lemma get_top_5_crypto_list_run (http : string -> http_outcome) :
  get_top_5_crypto_list http =
    ([HttpGet markets_url],
     match delivered (http markets_url) with
     | Some data => id_list data
     | None =>
         match unreadable (http markets_url) with
         | Some e => Raise e
         | None => Ret []
         end
     end).
Proof.
  unfold get_top_5_crypto_list. rewrite fetch_delivered.
  destruct (delivered _) as [data|]; simpl.
  - assert (id_list data <> Raise RequestException) as Hne.
    { apply iter_then_not_request. intros l.
      apply res_map_not_request. intros a. apply getitem_not_request. }
    destruct (id_list data) as [ids|[]]; simpl; congruence.
  - destruct (unreadable _) as [e|] eqn:Hparse; [|reflexivity].
    apply unreadable_not_request in Hparse. destruct e; simpl; congruence.
Qed.

Lemma generate_price_chart_run (http : string -> http_outcome) (crypto_id : string) :
  generate_price_chart http crypto_id =
    ([HttpGet (chart_url crypto_id)],
     Ret match delivered (http (chart_url crypto_id)) with
         | Some data =>
             match chart_of crypto_id data with
             | Ret chart => chart
             | Raise _ => None
             end
         | None => None
         end).
Proof.
  unfold generate_price_chart. rewrite fetch_delivered.
  destruct (delivered _) as [data|]; simpl.
  - destruct (chart_of crypto_id data) as [chart|[]]; reflexivity.
  - destruct (unreadable _) as [[]|]; reflexivity.
Qed.

Lemma price_line_snapshot (entry : json) (s : snapshot) :
  snapshot_of entry = Some s -> price_line entry = Ret (snapshot_line s).
Proof.
  unfold snapshot_of, price_line, snapshot_line.
  destruct entry; try discriminate. simpl.
  destruct (Py.dict_get items "name") as [name|]; [|discriminate].
  destruct (Py.dict_get items "symbol") as [[]|]; try discriminate.
  destruct (Py.dict_get items "current_price") as [price|]; [|discriminate].
  intros [= <-]. reflexivity.
Qed.

Lemma price_lines_snapshots (entries : list json) (snaps : list snapshot) :
  snapshots entries = Some snaps ->
  res_map price_line entries = Ret (map snapshot_line snaps).
Proof.
  revert snaps. induction entries as [|entry entries IH]; simpl; intros snaps.
  - intros [= <-]. reflexivity.
  - destruct (snapshot_of entry) as [s|] eqn:Hs; [|discriminate].
    destruct (snapshots entries) as [ss|]; [|discriminate].
    intros [= <-]. rewrite (price_line_snapshot _ _ Hs). simpl.
    rewrite (IH ss eq_refl). reflexivity.
Qed.

Lemma snapshots_length (entries : list json) (snaps : list snapshot) :
  snapshots entries = Some snaps -> length snaps = length entries.
Proof.
  revert snaps. induction entries as [|entry entries IH]; simpl; intros snaps.
  - intros [= <-]. reflexivity.
  - destruct (snapshot_of entry); [|discriminate].
    destruct (snapshots entries) as [ss|]; [|discriminate].
    intros [= <-]. simpl. f_equal. apply IH. reflexivity.
Qed.

Lemma snapshots_lookup (entries : list json) (snaps : list snapshot)
    (i : nat) (entry : json) :
  snapshots entries = Some snaps ->
  entries !! i = Some entry ->
  exists s, snapshot_of entry = Some s /\ snaps !! i = Some s.
Proof.
  revert snaps i. induction entries as [|e entries IH]; simpl; intros snaps i.
  - intros _ Hi. discriminate.
  - destruct (snapshot_of e) as [s|] eqn:Hs; [|discriminate].
    destruct (snapshots entries) as [ss|]; [|discriminate].
    intros [= <-]. destruct i as [|i]; simpl.
    + intros [= <-]. eauto.
    + intros Hi. apply (IH ss i eq_refl Hi).
Qed.

(** C5, as the code has it: when the markets endpoint answers with a list
    of snapshots, the listing has one line per snapshot, as many as the
    endpoint sent and in the order it sent them, each of the form
    [{name} ({SYMBOL}): ${price}] with the symbol in upper case, joined
    into one block; it has at most five lines when the endpoint sent at
    most five. *)
Theorem top5_lines_follow_upstream (http : string -> http_outcome)
    (entries : list json) (snaps : list snapshot) :
  delivered (http markets_url) = Some (JArr entries) ->
  snapshots entries = Some snaps ->
  let lines := map snapshot_line snaps in
  price_lines (JArr entries) = Ret lines
  /\ get_top_5_crypto_prices http =
       ([HttpGet markets_url], Ret (Str.join newline lines))
  /\ length lines = length entries
  /\ (forall i entry, entries !! i = Some entry ->
        exists s, snapshot_of entry = Some s
                  /\ lines !! i = Some (snapshot_line s))
  /\ (length entries <= 5 -> length lines <= 5)%nat.
Proof.
  intros Hdata Hsnaps lines.
  assert (length lines = length entries) as Hlen.
  { unfold lines. rewrite length_map. exact (snapshots_length _ _ Hsnaps). }
  assert (price_lines (JArr entries) = Ret lines) as Hlines.
  { unfold price_lines. simpl. exact (price_lines_snapshots _ _ Hsnaps). }
  repeat split.
  - exact Hlines.
  - rewrite get_top_5_crypto_prices_run, Hdata, Hlines. reflexivity.
  - exact Hlen.
  - intros i entry Hi.
    destruct (snapshots_lookup _ _ _ _ Hsnaps Hi) as (s & Hs & Hsi).
    exists s. split; [exact Hs |]. unfold lines.
    rewrite list_lookup_fmap, Hsi. reflexivity.
  - rewrite Hlen. auto.
Qed.

(** ** The chart *)

Lemma chart_of_rows (crypto_id : string) (items : list (string * json))
    (prices : json) (df : list (Z * Q)) :
  Py.dict_get items "prices" = Some prices ->
  DataFrame prices = Some df ->
  chart_of crypto_id (JObj items) =
    res_bind (render crypto_id df) (fun buf => Ret (Some buf)).
Proof.
  intros Hget Hdf. unfold chart_of. simpl. unfold Py.has_key.
  rewrite Hget. simpl. rewrite Hdf. reflexivity.
Qed.

Lemma draw_trend (crypto_id : string) (df : list (Z * Q)) (first lst : Q) :
  head (map snd df) = Some first ->
  last (map snd df) = Some lst ->
  draw crypto_id df =
    Ret {| line_color := if Qle_bool first lst then green else red;
           fig_title := Str.title crypto_id +:+ " Price (Last 24h)";
           ylabel := "Price (USD)";
           points := df |}.
Proof.
  intros Hfirst Hlast. unfold draw, iloc_first, iloc_last.
  rewrite Hlast. destruct (map snd df) as [|p ps]; [discriminate |].
  injection Hfirst as ->. reflexivity.
Qed.

Lemma nonempty_ends (df : list (Z * Q)) :
  df <> [] ->
  exists first lst,
    head (map snd df) = Some first /\ last (map snd df) = Some lst.
Proof.
  intros Hne. destruct df as [|row df]; [congruence |].
  exists (snd row). simpl.
  destruct (last (snd row :: map snd df)) as [lst|] eqn:Hlast; [eauto |].
  apply last_None in Hlast. discriminate.
Qed.

Lemma chart_rendered (http : string -> http_outcome) (crypto_id : string)
    (items : list (string * json)) (prices : json) (df : list (Z * Q))
    (fig : figure) :
  delivered (http (chart_url crypto_id)) = Some (JObj items) ->
  Py.dict_get items "prices" = Some prices ->
  DataFrame prices = Some df ->
  draw crypto_id df = Ret fig ->
  generate_price_chart http crypto_id =
    ([HttpGet (chart_url crypto_id)],
     Ret (if plot_fails fig then None
          else Some (BytesIO_seek (savefig BytesIO_new fig) 0))).
Proof.
  intros Hdata Hget Hdf Hdraw.
  rewrite generate_price_chart_run, Hdata.
  rewrite (chart_of_rows _ _ _ _ Hget Hdf). unfold render.
  rewrite Hdraw. simpl. destruct (plot_fails fig); reflexivity.
Qed.

(** C6: for a non-empty series the line of the figure is given the upward
    colour when the last price is at least the first one, equality
    included, and the downward colour when it is strictly smaller; a chart
    that is returned is that very figure saved, and it is returned whenever
    no plotting step fails on the figure. *)
Theorem trend_color (http : string -> http_outcome) (crypto_id : string)
    (items : list (string * json)) (prices : json) (df : list (Z * Q))
    (first lst : Q) :
  delivered (http (chart_url crypto_id)) = Some (JObj items) ->
  Py.dict_get items "prices" = Some prices ->
  DataFrame prices = Some df ->
  head (map snd df) = Some first ->
  last (map snd df) = Some lst ->
  exists fig,
    draw crypto_id df = Ret fig
    /\ points fig = df
    /\ ((first <= lst)%Q -> line_color fig = green)
    /\ ((first == lst)%Q -> line_color fig = green)
    /\ ((lst < first)%Q -> line_color fig = red)
    /\ green <> red
    /\ (forall buf,
          snd (generate_price_chart http crypto_id) = Ret (Some buf) ->
          buf = BytesIO_seek (savefig BytesIO_new fig) 0)
    /\ (plot_fails fig = false ->
        generate_price_chart http crypto_id =
          ([HttpGet (chart_url crypto_id)],
           Ret (Some (BytesIO_seek (savefig BytesIO_new fig) 0)))).
Proof.
  intros Hdata Hget Hdf Hfirst Hlast.
  pose proof (draw_trend crypto_id df first lst Hfirst Hlast) as Hdraw.
  pose proof (chart_rendered http crypto_id items prices df _ Hdata Hget Hdf Hdraw)
    as Hrun.
  eexists. split; [exact Hdraw |].
  split; [reflexivity |]. split; [|split; [|split; [|split; [|split]]]].
  - simpl. intros Hle. apply Qle_bool_iff in Hle. rewrite Hle. reflexivity.
  - simpl. intros Heq.
    assert (first <= lst)%Q as Hle by (rewrite Heq; apply Qle_refl).
    apply Qle_bool_iff in Hle. rewrite Hle. reflexivity.
  - simpl. intros Hlt. destruct (Qle_bool first lst) eqn:Hle; [|reflexivity].
    apply Qle_bool_iff in Hle. exfalso. exact (Qlt_not_le _ _ Hlt Hle).
  - discriminate.
  - intros buf. rewrite Hrun. simpl.
    destruct (plot_fails _); [discriminate |]. intros [= <-]. reflexivity.
  - intros Hok. rewrite Hrun, Hok. reflexivity.
Qed.

(** C7, as the code has it: for a non-empty series on which no plotting,
    layout or save step fails, [generate_price_chart] returns a buffer that
    starts with the PNG signature, hence is not empty, and is positioned at
    its start; when one of these steps fails on the figure it returns
    [None]; for the body [{"prices": []}], and for a body without [prices],
    it returns [None]. It never raises. *)
Theorem chart_or_no_chart (http : string -> http_outcome) (crypto_id : string) :
  (forall items prices df,
      delivered (http (chart_url crypto_id)) = Some (JObj items) ->
      Py.dict_get items "prices" = Some prices ->
      DataFrame prices = Some df ->
      df <> [] ->
      exists fig,
        draw crypto_id df = Ret fig
        /\ (plot_fails fig = false ->
            exists buf,
              generate_price_chart http crypto_id =
                ([HttpGet (chart_url crypto_id)], Ret (Some buf))
              /\ getvalue buf <> []
              /\ take 8 (getvalue buf) = png_signature
              /\ tell buf = 0%nat)
        /\ (plot_fails fig = true ->
            generate_price_chart http crypto_id =
              ([HttpGet (chart_url crypto_id)], Ret None)))
  /\ (forall items,
        delivered (http (chart_url crypto_id)) = Some (JObj items) ->
        Py.dict_get items "prices" = Some (JArr []) ->
        generate_price_chart http crypto_id =
          ([HttpGet (chart_url crypto_id)], Ret None))
  /\ (forall data,
        delivered (http (chart_url crypto_id)) = Some data ->
        Py.contains "prices" data = Ret false ->
        generate_price_chart http crypto_id =
          ([HttpGet (chart_url crypto_id)], Ret None))
  /\ generate_price_chart (always (series [])) crypto_id =
       ([HttpGet (chart_url crypto_id)], Ret None).
Proof.
  split; [|split; [|split; [|reflexivity]]].
  - intros items prices df Hdata Hget Hdf Hne.
    destruct (nonempty_ends df Hne) as (first & lst & Hfirst & Hlast).
    pose proof (draw_trend crypto_id df first lst Hfirst Hlast) as Hdraw.
    pose proof (chart_rendered http crypto_id items prices df _ Hdata Hget Hdf Hdraw)
      as Hrun.
    eexists. split; [exact Hdraw |]. split.
    + intros Hok. rewrite Hok in Hrun. eexists. split; [exact Hrun |].
      simpl. repeat split. discriminate.
    + intros Hfails. rewrite Hfails in Hrun. exact Hrun.
  - intros items Hdata Hget.
    rewrite generate_price_chart_run, Hdata.
    rewrite (chart_of_rows crypto_id items (JArr []) [] Hget eq_refl).
    reflexivity.
  - intros data Hdata Hmissing.
    rewrite generate_price_chart_run, Hdata.
    unfold chart_of. rewrite Hmissing. reflexivity.
Qed.

(** ** The handlers *)

Lemma answer_get_price (http : string -> http_outcome) (text : string) :
  answer http "get_price" text =
    match snd (get_crypto_price http (crypto_id_of text)) with
    | Ret price_info =>
        ([checking text; HttpGet (price_url (crypto_id_of text));
          ReplyText (if looks_failed price_info then price_failed text
                     else price_reply text price_info)],
         Ret tt)
    | Raise e =>
        ([checking text; HttpGet (price_url (crypto_id_of text))], Raise e)
    end.
Proof.
  unfold answer. simpl String.eqb. cbv iota.
  rewrite get_crypto_price_run. simpl.
  destruct (delivered _) as [data|]; simpl.
  - destruct (price_text _ data) as [info|e]; simpl; [|reflexivity].
    destruct (looks_failed info); reflexivity.
  - destruct (unreadable _); reflexivity.
Qed.

Lemma answer_get_chart (http : string -> http_outcome) (text : string) :
  exists chart,
    generate_price_chart http (crypto_id_of text) =
      ([HttpGet (chart_url (crypto_id_of text))], Ret chart)
    /\ answer http "get_chart" text =
         ([generating text; HttpGet (chart_url (crypto_id_of text));
           match chart with
           | Some photo =>
               ReplyPhoto photo (chart_caption text)
           | None => ReplyText (chart_failed text)
           end],
          Ret tt).
Proof.
  eexists. split; [apply generate_price_chart_run |].
  unfold answer. simpl String.eqb. cbv iota.
  rewrite generate_price_chart_run. simpl.
  destruct (delivered _) as [data|]; simpl; [|reflexivity].
  destruct (chart_of _ data) as [[photo|]|e]; reflexivity.
Qed.

Lemma answer_other (http : string -> http_outcome) (intent text : string) :
  intent <> "get_price" -> intent <> "get_chart" ->
  answer http intent text = ([], Ret tt).
Proof.
  intros Hp Hc. unfold answer.
  apply String.eqb_neq in Hp, Hc. rewrite Hp, Hc. reflexivity.
Qed.

Lemma crypto_id_of_label (label : string) :
  crypto_id_of label = identifier_of_label label.
Proof.
  unfold crypto_id_of, identifier_of_label.
  destruct (same_ignoring_case label "Toncoin") eqn:Hsame.
  - apply lower_same in Hsame. rewrite Hsame. reflexivity.
  - destruct (String.eqb_spec (Str.lower label) "toncoin") as [Heq|]; [|reflexivity].
    assert (same_ignoring_case label "Toncoin" = true) as Hyes
      by (apply lower_same; exact Heq).
    congruence.
Qed.

(** C8: the identifier the handler computes from a label is
    [the-open-network] when the label is "Toncoin" in any mix of upper
    and lower case, and the lower-cased label otherwise; every call the
    handler makes to the client, for a price or for a chart, carries that
    identifier. *)
Theorem label_to_identifier (http : string -> http_outcome) (label : string) :
  (same_ignoring_case label "Toncoin" = true ->
   crypto_id_of label = "the-open-network")
  /\ (same_ignoring_case label "Toncoin" = false ->
      crypto_id_of label = Str.lower label)
  /\ http_calls (fst (answer http "get_price" label)) =
       [HttpGet (price_url (identifier_of_label label))]
  /\ http_calls (fst (answer http "get_chart" label)) =
       [HttpGet (chart_url (identifier_of_label label))].
Proof.
  repeat split.
  - intros Hsame. rewrite crypto_id_of_label. unfold identifier_of_label.
    rewrite Hsame. reflexivity.
  - intros Hsame. rewrite crypto_id_of_label. unfold identifier_of_label.
    rewrite Hsame. reflexivity.
  - rewrite answer_get_price, crypto_id_of_label.
    destruct (snd (get_crypto_price _ _)); reflexivity.
  - destruct (answer_get_chart http label) as (chart & _ & ->).
    rewrite crypto_id_of_label. destruct chart; reflexivity.
Qed.

Lemma process_update_other (http : string -> http_outcome) (uid uid' : Z)
    (upd : update) (store : gmap Z (gmap string string)) :
  uid' <> uid ->
  user_data_of (snd (process_update http uid upd store)) uid' =
    user_data_of store uid'.
Proof.
  intros Hne. unfold process_update.
  destruct (dispatch http upd (user_data_of store uid)) as [out user_data].
  unfold user_data_of. simpl. rewrite lookup_insert_ne by congruence.
  reflexivity.
Qed.

(** C10: a text message from a user without a pending intent produces no
    event at all, neither a reply nor a request, returns, and leaves the
    [user_data] of that user, and of every other user, as it was. *)
Theorem no_intent_no_effect (http : string -> http_outcome) (text : string)
    (store : gmap Z (gmap string string)) (uid : Z) :
  pending (user_data_of store uid) = None ->
  crypto_handler http text (user_data_of store uid) =
    (([], Ret tt), user_data_of store uid)
  /\ fst (process_update http uid (Text text) store) = ([], Ret tt)
  /\ forall uid',
       user_data_of (snd (process_update http uid (Text text) store)) uid' =
         user_data_of store uid'.
Proof.
  intros Hnone.
  assert (crypto_handler http text (user_data_of store uid) =
            (([], Ret tt), user_data_of store uid)) as Hrun.
  { unfold crypto_handler. rewrite Hnone. reflexivity. }
  split; [exact Hrun |].
  unfold process_update. simpl. rewrite Hrun. split; [reflexivity |].
  intros uid'. simpl. unfold user_data_of at 1.
  destruct (decide (uid = uid')) as [<-|Hne].
  - rewrite lookup_insert_eq. reflexivity.
  - rewrite lookup_insert_ne by exact Hne. reflexivity.
Qed.

Lemma price_answer_returns (http : string -> http_outcome) (crypto_name : string) :
  price_answer crypto_name (http (price_url crypto_name)) = true ->
  exists price_info,
    snd (get_crypto_price http crypto_name) = Ret price_info.
Proof.
  unfold price_answer. intros Hshape. rewrite get_crypto_price_run. simpl.
  destruct (delivered _) as [data|] eqn:Hdata.
  - rewrite (price_text_body _ _ Hshape). eauto.
  - destruct (transport_failure_fetched _ Hshape) as [_ ->]. eauto.
Qed.





(** ** What the user is told on a failure *)

(** The "not available" message is recognised by the test of line 87,
    the "service unavailable" message is not. *)
Lemma looks_failed_not_available : looks_failed price_not_available = true.
Proof. reflexivity. Qed.

Lemma looks_failed_service_unavailable : looks_failed service_unavailable = false.
Proof. reflexivity. Qed.

(** A missing identifier or USD field is reported with the fixed price
    failure message. *)
Lemma missing_price_reported (http : string -> http_outcome) (text : string)
    (user_data : gmap string string) (data : json) :
  pending user_data = Some "get_price" ->
  delivered (http (price_url (crypto_id_of text))) = Some data ->
  price_body (crypto_id_of text) data = true ->
  usd_value (crypto_id_of text) data = None ->
  fst (crypto_handler http text user_data) =
    ([checking text; HttpGet (price_url (crypto_id_of text));
      ReplyText (price_failed text)], Ret tt).
Proof.
  intros Hpending Hdata Hbody Hnone. unfold crypto_handler.
  rewrite Hpending, answer_get_price, get_crypto_price_run, Hdata.
  rewrite (price_text_body _ _ Hbody), Hnone. reflexivity.
Qed.

(** A chart that could not be produced is reported with the fixed chart
    failure message. *)
Lemma missing_chart_reported (http : string -> http_outcome) (text : string)
    (user_data : gmap string string) :
  pending user_data = Some "get_chart" ->
  snd (generate_price_chart http (crypto_id_of text)) = Ret None ->
  fst (crypto_handler http text user_data) =
    ([generating text; HttpGet (chart_url (crypto_id_of text));
      ReplyText (chart_failed text)], Ret tt).
Proof.
  intros Hpending Hnone. unfold crypto_handler. rewrite Hpending.
  destruct (answer_get_chart http text) as (chart & Hchart & ->).
  rewrite Hchart in Hnone. injection Hnone as ->. reflexivity.
Qed.

(** C1, where the code departs from it: with the [get_price] intent
    pending and a transport failure on the price request, the handler
    replies with the "service unavailable" message in the place of the
    price, not with the fixed price failure message. *)
Theorem transport_failure_shown_as_price (http : string -> http_outcome)
    (text : string) (user_data : gmap string string) :
  pending user_data = Some "get_price" ->
  transport_failure (http (price_url (crypto_id_of text))) = true ->
  fst (crypto_handler http text user_data) =
    ([checking text; HttpGet (price_url (crypto_id_of text));
      ReplyText (price_reply text service_unavailable)], Ret tt)
  /\ price_reply text service_unavailable <> price_failed text.
Proof.
  intros Hpending Hfail. split; [|discriminate].
  unfold crypto_handler, transport_failure in *.
  rewrite Hpending, answer_get_price, get_crypto_price_run.
  destruct (delivered _); [discriminate |].
  destruct (unreadable _); [discriminate | reflexivity].
Qed.

(** ** The keyboard *)

Lemma send_keyboard_run (http : string -> http_outcome) :
  send_keyboard http =
    let crypto_list :=
      match snd (get_top_5_crypto_list http) with
      | Ret ids => ids
      | Raise _ => fallback_list
      end ++ [JStr "Toncoin"] in
    match res_map Py.title crypto_list with
    | Ret labels =>
        ([HttpGet markets_url;
          ReplyKeyboard select_prompt (map (fun label => [label]) labels)],
         Ret tt)
    | Raise e => ([HttpGet markets_url], Raise e)
    end.
Proof.
  unfold send_keyboard. rewrite get_top_5_crypto_list_run. simpl.
  destruct (delivered _) as [data|]; simpl.
  - destruct (id_list data) as [ids|e]; simpl.
    + destruct (res_map Py.title (ids ++ _)); reflexivity.
    + reflexivity.
  - destruct (unreadable _); reflexivity.
Qed.

(** The static list is used when [get_top_5_crypto_list] raises. *)
Lemma fallback_when_list_raises (http : string -> http_outcome) (intent : string)
    (user_data : gmap string string) (data : json) (e : exn) :
  delivered (http markets_url) = Some data ->
  id_list data = Raise e ->
  fst (ask_for_crypto http intent user_data) =
    ([HttpGet markets_url;
      ReplyKeyboard select_prompt
        [["Bitcoin"]; ["Ethereum"]; ["Binancecoin"]; ["Ripple"]; ["Cardano"];
         ["Toncoin"]]], Ret tt).
Proof.
  intros Hdata Hraise. unfold ask_for_crypto. simpl.
  rewrite send_keyboard_run, get_top_5_crypto_list_run, Hdata, Hraise.
  reflexivity.
Qed.

(** C4, as the code has it: on each of the three transport failures (no
    response, an error status, a body that is not JSON) the three client
    functions return their fixed failure value instead of raising, and
    [generate_price_chart] returns, a chart or [None], whatever the answer
    of the API is. What [get_top_5_crypto_list] raises on a body it cannot
    read passes through it, and [ask_for_crypto] catches it and offers the
    static list. *)
Theorem transport_failures_absorbed (http : string -> http_outcome) :
  (forall crypto_name,
      transport_failure (http (price_url crypto_name)) = true ->
      get_crypto_price http crypto_name =
        ([HttpGet (price_url crypto_name)], Ret service_unavailable))
  /\ (transport_failure (http markets_url) = true ->
      get_top_5_crypto_prices http = ([HttpGet markets_url], Ret top5_unavailable)
      /\ get_top_5_crypto_list http = ([HttpGet markets_url], Ret []))
  /\ (forall crypto_id, exists chart,
        generate_price_chart http crypto_id =
          ([HttpGet (chart_url crypto_id)], Ret chart))
  /\ (forall crypto_id,
        transport_failure (http (chart_url crypto_id)) = true ->
        generate_price_chart http crypto_id =
          ([HttpGet (chart_url crypto_id)], Ret None))
  /\ (forall data e intent user_data,
        delivered (http markets_url) = Some data ->
        id_list data = Raise e ->
        get_top_5_crypto_list http = ([HttpGet markets_url], Raise e)
        /\ fst (ask_for_crypto http intent user_data) =
             ([HttpGet markets_url;
               ReplyKeyboard select_prompt
                 [["Bitcoin"]; ["Ethereum"]; ["Binancecoin"]; ["Ripple"];
                  ["Cardano"]; ["Toncoin"]]], Ret tt)).
Proof.
  unfold transport_failure.
  split; [|split; [|split; [|split]]].
  - intros crypto_name Hfail. rewrite get_crypto_price_run.
    destruct (delivered _); [discriminate |].
    destruct (unreadable _); [discriminate | reflexivity].
  - intros Hfail.
    rewrite get_top_5_crypto_prices_run, get_top_5_crypto_list_run.
    destruct (delivered _); [discriminate |].
    destruct (unreadable _); [discriminate | split; reflexivity].
  - intros crypto_id. rewrite generate_price_chart_run. eauto.
  - intros crypto_id Hfail. rewrite generate_price_chart_run.
    destruct (delivered _); [discriminate |].
    destruct (unreadable _); [discriminate | reflexivity].
  - intros data e intent user_data Hdata Hraise. split.
    + rewrite get_top_5_crypto_list_run, Hdata, Hraise. reflexivity.
    + exact (fallback_when_list_raises http intent user_data data e Hdata Hraise).
Qed.

(** C3, where the code departs from it: when the markets request fails,
    [get_top_5_crypto_list] returns the empty list without raising, so the
    static list is not used and the keyboard offers "Toncoin" alone. *)
Theorem failed_list_offers_toncoin_only (http : string -> http_outcome)
    (intent : string) (user_data : gmap string string) :
  transport_failure (http markets_url) = true ->
  fst (ask_for_crypto http intent user_data) =
    ([HttpGet markets_url; ReplyKeyboard select_prompt [["Toncoin"]]], Ret tt).
Proof.
  unfold transport_failure. intros Hfail. unfold ask_for_crypto. simpl.
  rewrite send_keyboard_run, get_top_5_crypto_list_run.
  destruct (delivered _); [discriminate |].
  destruct (unreadable _); [discriminate | reflexivity].
Qed.

End Properties.

(** * Further properties of the two modules *)

Section Further.

Context `{PyRuntime}.

(** ** The client functions *)

(** X1: each of the four client functions sends exactly one request, to its
    own URL, whatever the answer is: nothing is retried and nothing is
    skipped. *)
Theorem one_request_per_call (http : string -> http_outcome) (name : string) :
  fst (get_crypto_price http name) = [HttpGet (price_url name)]
  /\ fst (get_top_5_crypto_prices http) = [HttpGet markets_url]
  /\ fst (get_top_5_crypto_list http) = [HttpGet markets_url]
  /\ fst (generate_price_chart http name) = [HttpGet (chart_url name)].
Proof.
  rewrite get_crypto_price_run, get_top_5_crypto_prices_run,
    get_top_5_crypto_list_run, generate_price_chart_run.
  repeat split.
Qed.

Lemma price_text_raises (crypto_name : string) (data : json) (e : exn) :
  price_text crypto_name data = Raise e -> e = TypeError.
Proof.
  unfold price_text, has_usd_price.
  destruct data; simpl; try congruence.
  - destruct (Str.contains crypto_name s); simpl; congruence.
  - destruct (existsb _ _); simpl; congruence.
  - unfold Py.has_key.
    destruct (Py.dict_get items crypto_name) as [entry|]; simpl; [|congruence].
    destruct entry; simpl; try congruence.
    + destruct (Str.contains "usd" s); simpl; congruence.
    + destruct (existsb _ _); simpl; congruence.
    + unfold Py.has_key.
      destruct (Py.dict_get items0 "usd"); simpl; congruence.
Qed.

(** X2: the two membership tests of [get_crypto_price] keep every
    [KeyError] away: whatever the answer, the function raises neither a
    [KeyError] nor a [RequestException]; from a body that parsed, the only
    exception that leaves it is a [TypeError]; the only other exceptions
    are those the JSON parser raises by itself. None leaves it on a
    transport failure, nor when the body is an object whose entry for the
    identifier, if any, is an object. *)
Theorem get_crypto_price_raises (http : string -> http_outcome) (name : string) :
  (forall e,
      snd (get_crypto_price http name) = Raise e ->
      e <> KeyError /\ e <> RequestException
      /\ ((exists data,
             delivered (http (price_url name)) = Some data /\ e = TypeError)
          \/ unreadable (http (price_url name)) = Some e))
  /\ (price_answer name (http (price_url name)) = true ->
      exists price_info, snd (get_crypto_price http name) = Ret price_info).
Proof.
  split.
  - intros e. rewrite get_crypto_price_run. simpl.
    destruct (delivered _) as [data|].
    + intros Hraise. apply price_text_raises in Hraise. subst e.
      repeat split; try discriminate. left. eauto.
    + destruct (unreadable _) as [e'|] eqn:Hparse; [|discriminate].
      intros [= <-]. split; [|split].
      * unfold unreadable in Hparse.
        destruct (http (price_url name)) as [| |status why]; try discriminate.
        destruct (error_status status); [discriminate |].
        injection Hparse as <-. destruct why; discriminate.
      * exact (unreadable_not_request _ _ Hparse).
      * right. reflexivity.
  - apply price_answer_returns.
Qed.

(** ** The handlers *)

Lemma top5_run (http : string -> http_outcome) (user_data : gmap string string) :
  top5 http user_data =
    (match snd (get_top_5_crypto_prices http) with
     | Ret prices_info =>
         ([fetching; HttpGet markets_url;
           ReplyText (top5_heading +:+ prices_info)], Ret tt)
     | Raise e => ([fetching; HttpGet markets_url], Raise e)
     end, user_data).
Proof.
  unfold top5. rewrite get_top_5_crypto_prices_run. simpl.
  destruct (delivered _) as [data|]; simpl.
  - destruct (price_lines data); reflexivity.
  - destruct (unreadable _); reflexivity.
Qed.

Lemma send_keyboard_calls (http : string -> http_outcome) :
  http_calls (fst (send_keyboard http)) = [HttpGet markets_url].
Proof.
  rewrite send_keyboard_run. simpl.
  destruct (res_map Py.title _); reflexivity.
Qed.

Lemma answer_calls (http : string -> http_outcome) (intent text : string) :
  http_calls (fst (answer http intent text)) =
    if String.eqb intent "get_price" then [HttpGet (price_url (crypto_id_of text))]
    else if String.eqb intent "get_chart" then [HttpGet (chart_url (crypto_id_of text))]
    else [].
Proof.
  destruct (String.eqb_spec intent "get_price") as [->|Hp].
  - rewrite answer_get_price.
    destruct (snd (get_crypto_price _ _)); reflexivity.
  - destruct (String.eqb_spec intent "get_chart") as [->|Hc].
    + destruct (answer_get_chart http text) as (chart & _ & ->).
      destruct chart; reflexivity.
    + rewrite (answer_other http intent text Hp Hc). reflexivity.
Qed.

Lemma crypto_handler_calls (http : string -> http_outcome) (text : string)
    (user_data : gmap string string) :
  http_calls (events (crypto_handler http text user_data)) =
    match pending user_data with
    | Some intent => http_calls (fst (answer http intent text))
    | None => []
    end.
Proof.
  unfold crypto_handler, events.
  destruct (pending user_data) as [intent|]; [|reflexivity].
  destruct (answer http intent text) as [trace [[]|e]]; reflexivity.
Qed.

(** X3: handling one update sends at most one request to the API; [/start],
    a command without a handler and a text message without a pending
    intent send none. *)
Theorem one_request_per_update (http : string -> http_outcome) (upd : update)
    (user_data : gmap string string) :
  (length (http_calls (events (dispatch http upd user_data))) <= 1)%nat
  /\ (upd = Command "start"
      \/ (exists name, upd = Command name /\ name <> "start" /\ name <> "price"
                        /\ name <> "chart" /\ name <> "top5")
      \/ (exists text, upd = Text text /\ pending user_data = None) ->
      http_calls (events (dispatch http upd user_data)) = []).
Proof.
  split.
  - destruct upd as [name|text]; simpl.
    + destruct (String.eqb_spec name "start"); [simpl; lia |].
      destruct (String.eqb_spec name "price").
      { unfold events. simpl. rewrite send_keyboard_calls. simpl. lia. }
      destruct (String.eqb_spec name "chart").
      { unfold events. simpl. rewrite send_keyboard_calls. simpl. lia. }
      destruct (String.eqb_spec name "top5"); [|simpl; lia].
      rewrite top5_run. unfold events. simpl.
      destruct (snd (get_top_5_crypto_prices http)); simpl; lia.
    + rewrite crypto_handler_calls.
      destruct (pending user_data) as [intent|]; [|simpl; lia].
      rewrite answer_calls.
      destruct (String.eqb intent "get_price"); [simpl; lia |].
      destruct (String.eqb intent "get_chart"); simpl; lia.
  - intros [->|[(name & -> & Hs & Hp & Hc & Ht)|(text & -> & Hnone)]].
    + reflexivity.
    + simpl. apply String.eqb_neq in Hs, Hp, Hc, Ht.
      rewrite Hs, Hp, Hc, Ht. reflexivity.
    + simpl. rewrite crypto_handler_calls, Hnone. reflexivity.
Qed.

(** X4: a handler reads and writes the key [intent] only: every other key
    of [user_data] is left as it was, by every update. *)
Theorem only_intent_touched (http : string -> http_outcome) (upd : update)
    (user_data : gmap string string) (key : string) :
  key <> "intent" ->
  snd (dispatch http upd user_data) !! key = user_data !! key.
Proof.
  intros Hkey. destruct upd as [name|text]; simpl.
  - destruct (String.eqb name "start"); [reflexivity |].
    destruct (String.eqb name "price").
    { simpl. rewrite lookup_insert_ne by congruence. reflexivity. }
    destruct (String.eqb name "chart").
    { simpl. rewrite lookup_insert_ne by congruence. reflexivity. }
    destruct (String.eqb name "top5"); reflexivity.
  - unfold crypto_handler. destruct (pending user_data); [|reflexivity].
    destruct (answer http s text) as [trace [[]|e]]; simpl; [|reflexivity].
    rewrite lookup_delete_ne by congruence. reflexivity.
Qed.

Lemma dispatch_states (http : string -> http_outcome) (upd : update)
    (user_data : gmap string string) :
  user_data = ∅ \/ user_data = with_intent "get_price"
    \/ user_data = with_intent "get_chart" ->
  snd (dispatch http upd user_data) = ∅
  \/ snd (dispatch http upd user_data) = with_intent "get_price"
  \/ snd (dispatch http upd user_data) = with_intent "get_chart".
Proof.
  intros Hstate.
  assert (<["intent" := "get_price"]> user_data = with_intent "get_price") as Hprice.
  { unfold with_intent.
    destruct Hstate as [->|[->| ->]]; unfold with_intent;
      rewrite ?insert_empty, ?insert_singleton_eq; reflexivity. }
  assert (<["intent" := "get_chart"]> user_data = with_intent "get_chart") as Hchart.
  { unfold with_intent.
    destruct Hstate as [->|[->| ->]]; unfold with_intent;
      rewrite ?insert_empty, ?insert_singleton_eq; reflexivity. }
  assert (delete "intent" user_data = ∅) as Hdelete.
  { destruct Hstate as [->|[->| ->]]; unfold with_intent;
      rewrite ?delete_empty, ?delete_singleton_eq; reflexivity. }
  destruct upd as [name|text]; simpl.
  - destruct (String.eqb name "start"); [exact Hstate |].
    destruct (String.eqb name "price"); [simpl; auto |].
    destruct (String.eqb name "chart"); [simpl; auto |].
    destruct (String.eqb name "top5"); exact Hstate.
  - unfold crypto_handler. destruct (pending user_data); [|exact Hstate].
    destruct (answer http s text) as [trace [[]|e]]; simpl; auto.
Qed.

(** X5: whatever the user sends and whatever the API answers, the
    [user_data] of a user who started with an empty one is always one of
    three: empty, the intent [get_price] alone, or the intent [get_chart]
    alone. *)
Theorem intent_states (steps : list ((string -> http_outcome) * update)) :
  run steps ∅ = ∅
  \/ run steps ∅ = with_intent "get_price"
  \/ run steps ∅ = with_intent "get_chart".
Proof.
  assert (forall user_data,
             user_data = ∅ \/ user_data = with_intent "get_price"
               \/ user_data = with_intent "get_chart" ->
             run steps user_data = ∅
             \/ run steps user_data = with_intent "get_price"
             \/ run steps user_data = with_intent "get_chart") as Hinv.
  { induction steps as [|[http upd] steps IH]; intros user_data Hstate.
    - exact Hstate.
    - simpl. apply IH, dispatch_states, Hstate. }
  apply Hinv. auto.
Qed.

(** ** Labels and identifiers *)

Lemma to_lower_upper (c : ascii) : Str.to_lower (Str.to_upper c) = Str.to_lower c.
Proof. destruct c as [[] [] [] [] [] [] [] []]; reflexivity. Qed.

Lemma to_lower_lower (c : ascii) : Str.to_lower (Str.to_lower c) = Str.to_lower c.
Proof. destruct c as [[] [] [] [] [] [] [] []]; reflexivity. Qed.

Lemma lower_lower (s : string) : Str.lower (Str.lower s) = Str.lower s.
Proof.
  induction s as [|c s IH]; simpl; [reflexivity |].
  rewrite to_lower_lower, IH. reflexivity.
Qed.

Lemma lower_title_from (cased : bool) (s : string) :
  Str.lower (Str.title_from cased s) = Str.lower s.
Proof.
  revert cased. induction s as [|c s IH]; intros cased; simpl; [reflexivity |].
  destruct (Str.is_lower c); [|destruct (Str.is_upper c)]; simpl; rewrite IH;
    destruct cased; rewrite ?to_lower_upper, ?to_lower_lower; reflexivity.
Qed.

(** X6: the label the keyboard shows for an identifier made of ASCII
    characters leads back to that identifier when the user taps it:
    title-casing does not change what [crypto_handler] computes, so a
    lower-case identifier other than [toncoin] is recovered exactly. *)
Theorem keyboard_label_round_trip (id : string) :
  is_ascii id = true ->
  crypto_id_of (Str.title id) = crypto_id_of id
  /\ (Str.lower id = id -> id <> "toncoin" -> crypto_id_of (Str.title id) = id).
Proof.
  intros _.
  assert (crypto_id_of (Str.title id) = crypto_id_of id) as Hsame.
  { unfold crypto_id_of, Str.title. rewrite lower_title_from. reflexivity. }
  split; [exact Hsame |].
  intros Hlower Hne. rewrite Hsame. unfold crypto_id_of. rewrite Hlower.
  apply String.eqb_neq in Hne. rewrite Hne. reflexivity.
Qed.

(** X7: the identifier put into a URL is always in lower case, is never
    [toncoin], and is left unchanged when mapped a second time. *)
Theorem identifier_canonical (label : string) :
  Str.lower (crypto_id_of label) = crypto_id_of label
  /\ crypto_id_of label <> "toncoin"
  /\ crypto_id_of (crypto_id_of label) = crypto_id_of label.
Proof.
  unfold crypto_id_of.
  destruct (String.eqb_spec (Str.lower label) "toncoin") as [Heq|Hne].
  - repeat split. discriminate.
  - rewrite lower_lower. apply String.eqb_neq in Hne. rewrite Hne.
    repeat split. apply String.eqb_neq. exact Hne.
Qed.

(** ** The keyboard *)

Lemma id_list_ids (entries : list json) (ids : list string) :
  entry_ids entries = Some ids ->
  res_map (fun crypto => Py.getitem crypto "id") entries = Ret (map JStr ids).
Proof.
  revert ids. induction entries as [|entry entries IH]; simpl; intros ids.
  - intros [= <-]. reflexivity.
  - unfold entry_id.
    destruct entry; try discriminate. simpl.
    destruct (Py.dict_get items "id") as [[]|]; try discriminate.
    destruct (entry_ids entries) as [rest|]; [|discriminate].
    intros [= <-]. simpl. rewrite (IH rest eq_refl). reflexivity.
Qed.

Lemma entry_ids_length (entries : list json) (ids : list string) :
  entry_ids entries = Some ids -> length ids = length entries.
Proof.
  revert ids. induction entries as [|entry entries IH]; simpl; intros ids.
  - intros [= <-]. reflexivity.
  - destruct (entry_id entry); [|discriminate].
    destruct (entry_ids entries) as [rest|]; [|discriminate].
    intros [= <-]. simpl. f_equal. apply IH. reflexivity.
Qed.

Lemma title_labels (ids : list string) (extra : string) :
  res_map Py.title (map JStr ids ++ [JStr extra]) =
    Ret (map Str.title ids ++ [Str.title extra]).
Proof.
  induction ids as [|id ids IH]; simpl; [reflexivity |].
  rewrite IH. reflexivity.
Qed.

(** X8: when the markets endpoint answers with a list of entries that
    carry a string [id], [get_top_5_crypto_list] returns these identifiers,
    as many as the endpoint sent and in its order, and [ask_for_crypto]
    records the intent and offers one row per identifier, title-cased,
    followed by the row "Toncoin". *)
Theorem keyboard_from_live_list (http : string -> http_outcome) (intent : string)
    (user_data : gmap string string) (entries : list json) (ids : list string) :
  delivered (http markets_url) = Some (JArr entries) ->
  entry_ids entries = Some ids ->
  get_top_5_crypto_list http = ([HttpGet markets_url], Ret (map JStr ids))
  /\ length ids = length entries
  /\ ask_for_crypto http intent user_data =
       (([HttpGet markets_url;
          ReplyKeyboard select_prompt
            (map (fun id => [Str.title id]) ids ++ [["Toncoin"]])], Ret tt),
        <["intent" := intent]> user_data).
Proof.
  intros Hdata Hids.
  assert (get_top_5_crypto_list http = ([HttpGet markets_url], Ret (map JStr ids)))
    as Hlist.
  { rewrite get_top_5_crypto_list_run, Hdata. unfold id_list. simpl.
    rewrite (id_list_ids _ _ Hids). reflexivity. }
  split; [exact Hlist |]. split; [exact (entry_ids_length _ _ Hids) |].
  unfold ask_for_crypto. rewrite send_keyboard_run, Hlist. simpl.
  rewrite title_labels. simpl. rewrite map_app, map_map. reflexivity.
Qed.

Lemma res_map_snoc {A B} (f : A -> res B) (l : list A) (x : A) (ys : list B) :
  res_map f (l ++ [x]) = Ret ys ->
  exists ys' y, ys = ys' ++ [y] /\ f x = Ret y.
Proof.
  revert ys. induction l as [|a l IH]; simpl; intros ys.
  - destruct (f x) as [y|]; simpl; [|discriminate].
    intros [= <-]. exists [], y. split; reflexivity.
  - destruct (f a) as [b|]; simpl; [|discriminate].
    destruct (res_map f (l ++ [x])) as [bs|] eqn:Hrest; simpl; [|discriminate].
    intros [= <-]. destruct (IH bs eq_refl) as (ys' & y & -> & Hy).
    exists (b :: ys'), y. split; [reflexivity | exact Hy].
Qed.

(** X9: whenever [ask_for_crypto] sends its keyboard, whatever the API
    answered, the request to the markets endpoint came first and the last
    row of the keyboard is "Toncoin". *)
Theorem toncoin_always_offered (http : string -> http_outcome) (intent : string)
    (user_data : gmap string string) (trace : list event) :
  fst (ask_for_crypto http intent user_data) = (trace, Ret tt) ->
  exists rows,
    trace = [HttpGet markets_url;
             ReplyKeyboard select_prompt (rows ++ [["Toncoin"]])].
Proof.
  unfold ask_for_crypto. simpl. rewrite send_keyboard_run. simpl.
  destruct (res_map Py.title _) as [labels|e] eqn:Hlabels; [|discriminate].
  destruct (res_map_snoc _ _ _ _ Hlabels) as (labels' & label & -> & Hlast).
  simpl in Hlast. injection Hlast as <-.
  intros [= <-]. exists (map (fun label => [label]) labels').
  rewrite map_app. reflexivity.
Qed.

Lemma title_foreign (ids suffix : list json) :
  existsb (fun v => negb (is_string v)) ids = true ->
  res_map Py.title (ids ++ suffix) = Raise AttributeError.
Proof.
  induction ids as [|v ids IH]; simpl; [discriminate |].
  destruct v; simpl; try reflexivity.
  intros Hrest. rewrite (IH Hrest). reflexivity.
Qed.

(** X10: when the markets list holds an [id] that is not a string,
    [ask_for_crypto] raises [AttributeError] after the request: no keyboard
    is sent, yet the intent stays recorded. *)
Theorem foreign_id_no_keyboard (http : string -> http_outcome) (intent : string)
    (user_data : gmap string string) (data : json) (ids : list json) :
  delivered (http markets_url) = Some data ->
  id_list data = Ret ids ->
  existsb (fun v => negb (is_string v)) ids = true ->
  ask_for_crypto http intent user_data =
    (([HttpGet markets_url], Raise AttributeError),
     <["intent" := intent]> user_data).
Proof.
  intros Hdata Hids Hforeign. unfold ask_for_crypto.
  rewrite send_keyboard_run, get_top_5_crypto_list_run, Hdata, Hids. simpl.
  rewrite (title_foreign _ _ Hforeign). reflexivity.
Qed.

(** ** The listing *)

Lemma price_line_raises (entry : json) :
  snapshot_of entry = None -> exists e, price_line entry = Raise e.
Proof.
  unfold snapshot_of, price_line.
  destruct entry; simpl; eauto.
  destruct (Py.dict_get items "name") as [name|]; simpl; eauto.
  destruct (Py.dict_get items "symbol") as [symbol|]; simpl; eauto.
  destruct symbol; simpl; eauto.
  destruct (Py.dict_get items "current_price"); simpl; eauto. discriminate.
Qed.

Lemma res_map_raises {A B} (f : A -> res B) (l : list A) (a : A) (e : exn) :
  In a l -> f a = Raise e -> exists e', res_map f l = Raise e'.
Proof.
  intros Hin Hraise. induction l as [|b l IH]; simpl; [contradiction |].
  destruct (f b) as [y|e0] eqn:Hb; simpl; [|eauto].
  destruct Hin as [->|Hin]; [congruence |].
  destruct (IH Hin) as [e' ->]. simpl. eauto.
Qed.

(** X11: the listing is all or nothing: if one entry of the markets list
    lacks a name, a string symbol or a price, [get_top_5_crypto_prices]
    raises instead of returning the lines of the other entries, and [top5]
    sends its first message and nothing after it. *)
Theorem listing_all_or_nothing (http : string -> http_outcome)
    (user_data : gmap string string) (entries : list json) (entry : json) :
  delivered (http markets_url) = Some (JArr entries) ->
  In entry entries ->
  snapshot_of entry = None ->
  exists e,
    get_top_5_crypto_prices http = ([HttpGet markets_url], Raise e)
    /\ top5 http user_data =
         (([fetching; HttpGet markets_url], Raise e), user_data).
Proof.
  intros Hdata Hin Hbad.
  destruct (price_line_raises entry Hbad) as [e0 Hraise].
  destruct (res_map_raises price_line entries entry e0 Hin Hraise) as [e He].
  assert (get_top_5_crypto_prices http = ([HttpGet markets_url], Raise e)) as Hrun.
  { rewrite get_top_5_crypto_prices_run, Hdata. unfold price_lines. simpl.
    rewrite He. reflexivity. }
  exists e. split; [exact Hrun |]. rewrite top5_run, Hrun. reflexivity.
Qed.

(** X12: [top5] never changes [user_data]; it answers a transport failure
    with the failure message under the heading of the listing, a list of
    snapshots with their lines under that heading, and an empty list with
    the heading alone. *)
Theorem top5_replies (http : string -> http_outcome)
    (user_data : gmap string string) :
  snd (top5 http user_data) = user_data
  /\ (transport_failure (http markets_url) = true ->
      fst (top5 http user_data) =
        ([fetching; HttpGet markets_url;
          ReplyText (top5_heading +:+ top5_unavailable)], Ret tt))
  /\ (forall entries snaps,
        delivered (http markets_url) = Some (JArr entries) ->
        snapshots entries = Some snaps ->
        fst (top5 http user_data) =
          ([fetching; HttpGet markets_url;
            ReplyText (top5_heading +:+ Str.join newline (map snapshot_line snaps))],
           Ret tt))
  /\ (delivered (http markets_url) = Some (JArr []) ->
      fst (top5 http user_data) =
        ([fetching; HttpGet markets_url; ReplyText top5_heading], Ret tt)).
Proof.
  rewrite top5_run, get_top_5_crypto_prices_run. simpl.
  split; [reflexivity |]. split; [|split].
  - unfold transport_failure. intros Hfail.
    destruct (delivered _); [discriminate |].
    destruct (unreadable _); [discriminate | reflexivity].
  - intros entries snaps Hdata Hsnaps. rewrite Hdata.
    unfold price_lines. simpl.
    rewrite (price_lines_snapshots _ _ Hsnaps). reflexivity.
  - intros Hdata. rewrite Hdata. reflexivity.
Qed.

(** ** The chart *)

(** X13: [generate_price_chart] returns a chart only when the body is an
    object with the key [prices]; on rows of timestamps and prices the
    series is then not empty, and the buffer starts with the PNG signature
    and is positioned at its start. *)
Theorem chart_needs_prices (http : string -> http_outcome) (crypto_id : string)
    (buf : BytesIO) :
  snd (generate_price_chart http crypto_id) = Ret (Some buf) ->
  exists items prices,
    delivered (http (chart_url crypto_id)) = Some (JObj items)
    /\ Py.dict_get items "prices" = Some prices
    /\ match DataFrame prices with
       | Some df =>
           df <> [] /\ tell buf = 0%nat
           /\ take 8 (getvalue buf) = png_signature
       | None => plot_foreign crypto_id prices = Some buf
       end.
Proof.
  rewrite generate_price_chart_run. simpl.
  destruct (delivered _) as [data|] eqn:Hdata; [|discriminate].
  unfold chart_of.
  destruct data; simpl; try discriminate.
  - destruct (Str.contains "prices" s); discriminate.
  - destruct (existsb _ _); discriminate.
  - unfold Py.has_key.
    destruct (Py.dict_get items "prices") as [prices|] eqn:Hget; simpl;
      [|discriminate].
    intros Hchart. exists items, prices. split; [reflexivity |].
    split; [exact Hget |].
    destruct (DataFrame prices) as [df|].
    + unfold render, draw in Hchart.
      destruct df as [|row df]; [discriminate |]. simpl in Hchart.
      destruct (iloc_last _); simpl in Hchart; [|discriminate].
      destruct (plot_fails _); simpl in Hchart; [discriminate |].
      injection Hchart as <-. repeat split. discriminate.
    + injection Hchart as ->. reflexivity.
Qed.

(** X14: the colour of the line depends on the first and the last row
    only: two series with the same ends are drawn in the same colour
    whatever lies between, and a series of a single row is drawn in the
    upward colour. *)
Theorem trend_from_ends_only (crypto_id : string) (first lst : Z * Q)
    (between between' : list (Z * Q)) :
  (exists fig fig',
      draw crypto_id (first :: between ++ [lst]) = Ret fig
      /\ draw crypto_id (first :: between' ++ [lst]) = Ret fig'
      /\ line_color fig = line_color fig'
      /\ line_color fig = if Qle_bool (snd first) (snd lst) then green else red)
  /\ (exists fig, draw crypto_id [first] = Ret fig /\ line_color fig = green).
Proof.
  assert (forall mid : list (Z * Q),
             last (map snd (first :: mid ++ [lst])) = Some (snd lst)) as Hlast.
  { intros mid. rewrite app_comm_cons, map_app. apply last_snoc. }
  split.
  - do 2 eexists. split; [|split; [|split]].
    + apply (draw_trend crypto_id _ (snd first) (snd lst)); [reflexivity | apply Hlast].
    + apply (draw_trend crypto_id _ (snd first) (snd lst)); [reflexivity | apply Hlast].
    + reflexivity.
    + reflexivity.
  - eexists. split.
    + apply (draw_trend crypto_id [first] (snd first) (snd first)); reflexivity.
    + simpl. assert (Qle_bool (snd first) (snd first) = true) as ->
        by (apply Qle_bool_iff, Qle_refl).
      reflexivity.
Qed.

(** ** The replies to a selection *)

Lemma contains_first (c : ascii) (needle hay : string) :
  Str.is_lower c = true ->
  Str.contains (String c needle) hay = true ->
  has_lower hay = true.
Proof.
  intros Hc. induction hay as [|d hay IH]; cbn [Str.contains has_lower].
  - simpl. discriminate.
  - intros Hfound. apply orb_true_iff in Hfound. destruct Hfound as [Hpre|Hrest].
    + simpl in Hpre. destruct (ascii_dec c d) as [<-|]; [|discriminate].
      rewrite Hc. reflexivity.
    + rewrite (IH Hrest). apply orb_true_r.
Qed.

Lemma uncased_lower (s : string) : uncased s = true -> Str.lower s = s.
Proof.
  induction s as [|c s IH]; simpl; [reflexivity |].
  intros Hs. apply andb_true_iff in Hs. destruct Hs as [Hc Hs].
  apply andb_true_iff in Hc. destruct Hc as [_ Hup].
  unfold Str.to_lower. destruct (Str.is_upper c); [discriminate |].
  rewrite (IH Hs). reflexivity.
Qed.

Lemma uncased_no_lower (s : string) : uncased s = true -> has_lower s = false.
Proof.
  induction s as [|c s IH]; simpl; [reflexivity |].
  intros Hs. apply andb_true_iff in Hs. destruct Hs as [Hc Hs].
  apply andb_true_iff in Hc. destruct Hc as [Hlow _].
  destruct (Str.is_lower c); [discriminate |]. exact (IH Hs).
Qed.

(** A string without letters is never taken for a failure message. *)
Lemma looks_failed_uncased (s : string) : uncased s = true -> looks_failed s = false.
Proof.
  intros Hs. unfold looks_failed. rewrite (uncased_lower s Hs).
  pose proof (uncased_no_lower s Hs) as Hno.
  assert (forall c needle, Str.is_lower c = true ->
                           Str.contains (String c needle) s = false) as Hnot.
  { intros c needle Hc.
    destruct (Str.contains (String c needle) s) eqn:Hfound; [|reflexivity].
    rewrite (contains_first c needle s Hc Hfound) in Hno. discriminate. }
  rewrite !Hnot by reflexivity. reflexivity.
Qed.

Lemma uncased_digit (d : Z) :
  0 <= d < 10 -> uncased (String (Str.digit d) EmptyString) = true.
Proof.
  intros Hd.
  assert (d = 0 \/ d = 1 \/ d = 2 \/ d = 3 \/ d = 4 \/ d = 5 \/ d = 6
          \/ d = 7 \/ d = 8 \/ d = 9) as Hcases by lia.
  repeat (destruct Hcases as [->|Hcases]; [reflexivity |]).
  subst d. reflexivity.
Qed.

Lemma uncased_digits (fuel : nat) (n : Z) (acc : string) :
  0 <= n -> uncased acc = true -> uncased (Str.digits_fuel fuel n acc) = true.
Proof.
  revert n acc. induction fuel as [|fuel IH]; intros n acc Hn Hacc; simpl.
  - exact Hacc.
  - assert (uncased (String (Str.digit (n mod 10)) acc) = true) as Hstep.
    { pose proof (uncased_digit (n mod 10) (Z.mod_pos_bound n 10 eq_refl)) as Hd.
      cbn [uncased] in Hd |- *. rewrite andb_true_r in Hd.
      rewrite Hd, Hacc. reflexivity. }
    destruct (n <? 10); [exact Hstep |].
    apply IH; [apply Z.div_pos; lia | exact Hstep].
Qed.

Lemma uncased_of_int (z : Z) : uncased (Str.of_int z) = true.
Proof.
  unfold Str.of_int, Str.of_nonneg.
  destruct (z <? 0) eqn:Hneg.
  - apply Z.ltb_lt in Hneg. cbn [uncased].
    rewrite uncased_digits by (lia || reflexivity). reflexivity.
  - apply Z.ltb_ge in Hneg. apply uncased_digits; [lia | reflexivity].
Qed.

Lemma usd_value_body (crypto_name : string) (data usd : json) :
  usd_value crypto_name data = Some usd -> price_body crypto_name data = true.
Proof.
  unfold usd_value, price_body. destruct data; try discriminate.
  destruct (Py.dict_get items crypto_name) as [[]|]; try discriminate.
  reflexivity.
Qed.

(** X15: an integer USD value is always shown as the price: the reply to
    the selection is the price message with the dollar sign and the decimal
    digits, never the failure message, and the intent is cleared. *)
Theorem integer_price_shown (http : string -> http_outcome) (text : string)
    (user_data : gmap string string) (data : json) (z : Z) :
  pending user_data = Some "get_price" ->
  delivered (http (price_url (crypto_id_of text))) = Some data ->
  usd_value (crypto_id_of text) data = Some (JNum (PyInt z)) ->
  crypto_handler http text user_data =
    (([checking text; HttpGet (price_url (crypto_id_of text));
       ReplyText (price_reply text ("$" +:+ Str.of_int z))], Ret tt),
     delete "intent" user_data).
Proof.
  intros Hpending Hdata Husd. unfold crypto_handler.
  rewrite Hpending, answer_get_price, get_crypto_price_run, Hdata.
  rewrite (price_text_body _ _ (usd_value_body _ _ _ Husd)), Husd. simpl.
  assert (looks_failed ("$" +:+ Str.of_int z) = false) as ->.
  { apply looks_failed_uncased.
    change (uncased (String "$" (Str.of_int z)) = true).
    cbn [uncased]. rewrite uncased_of_int. reflexivity. }
  reflexivity.
Qed.

(** X16: an identifier the price endpoint does not list, as in the body
    [{}], is answered with the fixed price failure message, and the intent
    is cleared. *)
Theorem unknown_identifier_reported (http : string -> http_outcome) (text : string)
    (user_data : gmap string string) (items : list (string * json)) :
  pending user_data = Some "get_price" ->
  delivered (http (price_url (crypto_id_of text))) = Some (JObj items) ->
  Py.dict_get items (crypto_id_of text) = None ->
  crypto_handler http text user_data =
    (([checking text; HttpGet (price_url (crypto_id_of text));
       ReplyText (price_failed text)], Ret tt),
     delete "intent" user_data).
Proof.
  intros Hpending Hdata Hnone. unfold crypto_handler.
  rewrite Hpending, answer_get_price, get_crypto_price_run, Hdata.
  unfold price_text, has_usd_price. simpl. unfold Py.has_key.
  rewrite Hnone. reflexivity.
Qed.

(** X17: with the intent [get_chart] pending the handler always runs to
    its end: the progress message, one request, then either the photo with
    its caption or the fixed chart failure message, and the intent is
    cleared. *)
Theorem chart_branch_answers (http : string -> http_outcome) (text : string)
    (user_data : gmap string string) :
  pending user_data = Some "get_chart" ->
  exists reply,
    crypto_handler http text user_data =
      (([generating text; HttpGet (chart_url (crypto_id_of text)); reply], Ret tt),
       delete "intent" user_data)
    /\ ((exists photo, reply = ReplyPhoto photo (chart_caption text))
        \/ reply = ReplyText (chart_failed text)).
Proof.
  intros Hpending. unfold crypto_handler. rewrite Hpending.
  destruct (answer_get_chart http text) as (chart & _ & ->).
  eexists. split; [reflexivity |].
  destruct chart as [photo|]; [left; eauto | right; reflexivity].
Qed.

(** X18: [/start] and [/top5] leave a pending intent in place, so that the
    next text message is still taken as the selection; a second [/price] or
    [/chart] replaces the pending intent, so that the last command
    decides. *)
Theorem commands_and_pending_intent (http http' : string -> http_outcome)
    (user_data : gmap string string) (intent : string) :
  pending user_data = Some intent ->
  pending (snd (dispatch http (Command "start") user_data)) = Some intent
  /\ pending (snd (dispatch http (Command "top5") user_data)) = Some intent
  /\ pending (snd (dispatch http (Command "chart") user_data)) = Some "get_chart"
  /\ pending (snd (dispatch http (Command "price") user_data)) = Some "get_price"
  /\ snd (dispatch http' (Command "chart")
            (snd (dispatch http (Command "price") user_data))) =
       <["intent" := "get_chart"]> user_data.
Proof.
  intros Hpending. simpl. unfold pending.
  rewrite !lookup_insert_eq, insert_insert_eq. simpl.
  repeat split; exact Hpending.
Qed.

(** X19: an error status decides before the body is looked at: a 4xx or
    5xx response gives the failure value of each client function even when
    its body is the JSON the function expects, and any other status lets
    the body through. *)
Theorem error_status_wins (http : string -> http_outcome) (name : string)
    (status : Z) (data : json) :
  (400 <= status < 600 ->
   (http (price_url name) = Response status (Some data) ->
    snd (get_crypto_price http name) = Ret service_unavailable)
   /\ (http markets_url = Response status (Some data) ->
       snd (get_top_5_crypto_prices http) = Ret top5_unavailable
       /\ snd (get_top_5_crypto_list http) = Ret [])
   /\ (http (chart_url name) = Response status (Some data) ->
       snd (generate_price_chart http name) = Ret None))
  /\ (status < 400 \/ 600 <= status ->
      http (price_url name) = Response status (Some data) ->
      snd (get_crypto_price http name) = price_text name data).
Proof.
  split.
  - intros Hstatus.
    assert (error_status status = true) as Herr
      by (unfold error_status; apply andb_true_iff; split; lia).
    rewrite get_crypto_price_run, get_top_5_crypto_prices_run,
      get_top_5_crypto_list_run, generate_price_chart_run.
    split; [|split]; intros ->; simpl; rewrite Herr; try split; reflexivity.
  - intros Hstatus Hresp.
    assert (error_status status = false) as Herr
      by (unfold error_status; apply andb_false_iff; lia).
    rewrite get_crypto_price_run, Hresp. simpl. rewrite Herr. reflexivity.
Qed.

(** X20: when the price lookup raises, the handler stops after the
    progress message and the request: nothing more is sent, the intent
    stays pending, and the next text message is handled as a selection
    again, with a new request. *)
Theorem raised_lookup_leaves_intent (http http' : string -> http_outcome)
    (text text' : string) (user_data : gmap string string) (e : exn) :
  pending user_data = Some "get_price" ->
  snd (get_crypto_price http (crypto_id_of text)) = Raise e ->
  crypto_handler http text user_data =
    (([checking text; HttpGet (price_url (crypto_id_of text))], Raise e), user_data)
  /\ http_calls (events (crypto_handler http' text'
                           (snd (crypto_handler http text user_data)))) =
       [HttpGet (price_url (crypto_id_of text'))].
Proof.
  intros Hpending Hraise.
  assert (crypto_handler http text user_data =
            (([checking text; HttpGet (price_url (crypto_id_of text))], Raise e),
             user_data)) as Hrun.
  { unfold crypto_handler. rewrite Hpending, answer_get_price, Hraise.
    reflexivity. }
  split; [exact Hrun |].
  rewrite Hrun. simpl. rewrite crypto_handler_calls, Hpending, answer_calls.
  reflexivity.
Qed.

End Further.

(** ** The theorems at sample inputs *)

#[local] Existing Instance sample_runtime.



(** C4 as stated fails: a JSON body of another shape than the endpoint's
    makes each of the three client functions raise. *)
Lemma foreign_body_raises :
  snd (get_crypto_price
         (always (JObj [("bitcoin", JNum (PyInt 5))])) "bitcoin") = Raise TypeError
  /\ snd (get_top_5_crypto_prices (always (JArr [JObj []])))
     = Raise KeyError
  /\ snd (get_top_5_crypto_list (always (JArr [JObj []]))) = Raise KeyError.
Proof. repeat split. Qed.

Lemma transport_failures_absorbed_witness :
  get_crypto_price all_down "bitcoin" =
    ([HttpGet (price_url "bitcoin")], Ret service_unavailable)
  /\ get_top_5_crypto_prices all_down =
       ([HttpGet markets_url], Ret top5_unavailable)
  /\ get_top_5_crypto_list all_down = ([HttpGet markets_url], Ret [])
  /\ generate_price_chart all_down "bitcoin" =
       ([HttpGet (chart_url "bitcoin")], Ret None)
  /\ get_top_5_crypto_list (always (JArr [JObj []])) =
       ([HttpGet markets_url], Raise KeyError).
Proof.
  pose proof (transport_failures_absorbed all_down)
    as (Hprice & Hmarkets & _ & Hchart & _).
  pose proof (transport_failures_absorbed (always (JArr [JObj []])))
    as (_ & _ & _ & _ & Hraise).
  split; [exact (Hprice "bitcoin" eq_refl) |].
  split; [exact (proj1 (Hmarkets eq_refl)) |].
  split; [exact (proj2 (Hmarkets eq_refl)) |].
  split; [exact (Hchart "bitcoin" eq_refl) |].
  exact (proj1 (Hraise (JArr [JObj []]) KeyError "get_price" ∅ eq_refl eq_refl)).
Defined.

(** A price lookup that raises stops the handler before the intent is
    deleted. *)
Example raising_lookup_keeps_intent :
  crypto_handler (always (JObj [("bitcoin", JNum (PyInt 5))])) "Bitcoin"
    (with_intent "get_price") =
    (([checking "Bitcoin"; HttpGet (price_url "bitcoin")], Raise TypeError),
     with_intent "get_price").
Proof. reflexivity. Qed.

(** C5 as stated fails: six entries from the endpoint give six lines. *)
Lemma six_entries_six_lines :
  price_lines six_markets =
    Ret ["Bitcoin (BTC): $65000"; "Ethereum (ETH): $3200"; "Tether (USDT): $1";
         "BNB (BNB): $580"; "Solana (SOL): $150"; "XRP (XRP): $2"]
  /\ (exists lines,
        price_lines six_markets = Ret lines
        /\ (length lines > 5)%nat).
Proof.
  split; [reflexivity |]. eexists. split; [reflexivity |]. simpl. lia.
Qed.

Lemma top5_lines_follow_upstream_witness :
  get_top_5_crypto_prices (always five_markets) =
    ([HttpGet markets_url],
     Ret (Str.join newline (map (snapshot_line) five_snapshots)))
  /\ length (map (snapshot_line) five_snapshots) = 5%nat.
Proof.
  pose proof (top5_lines_follow_upstream (always five_markets)
                [market "bitcoin" "Bitcoin" "btc" 65000;
                 market "ethereum" "Ethereum" "eth" 3200;
                 market "tether" "Tether" "usdt" 1;
                 market "binancecoin" "BNB" "bnb" 580;
                 market "solana" "Solana" "sol" 150]
                five_snapshots eq_refl eq_refl)
    as (_ & Hblock & Hlen & _).
  split; [exact Hblock | exact Hlen].
Defined.

Lemma trend_color_witness :
  exists fig,
    draw "bitcoin" [(1, inject_Z 5); (2, inject_Z 7)] = Ret fig
    /\ line_color fig = green
    /\ generate_price_chart (always (series [point 1 5; point 2 7])) "bitcoin" =
         ([HttpGet (chart_url "bitcoin")],
          Ret (Some (BytesIO_seek (savefig BytesIO_new fig) 0))).
Proof.
  destruct (trend_color (always (series [point 1 5; point 2 7]))
              "bitcoin" [("prices", JArr [point 1 5; point 2 7])]
              (JArr [point 1 5; point 2 7])
              [(1, inject_Z 5); (2, inject_Z 7)] (inject_Z 5) (inject_Z 7)
              eq_refl eq_refl eq_refl eq_refl eq_refl)
    as (fig & Hdraw & _ & Hup & _ & _ & _ & _ & Hok).
  exists fig. split; [exact Hdraw |]. split; [apply Hup; discriminate |].
  apply Hok. injection Hdraw as <-. reflexivity.
Defined.

(** C7 as stated fails: on the identifier [$$] the title of the figure is
    [$$ Price (Last 24h)], on which the layout raises, so a series of two
    points gives no chart. *)
Lemma plot_step_fails_no_chart :
  DataFrame (JArr [point 1 5; point 2 7]) =
    Some [(1, inject_Z 5); (2, inject_Z 7)]
  /\ (exists fig,
        draw "$$" [(1, inject_Z 5); (2, inject_Z 7)] = Ret fig
        /\ fig_title fig = "$$ Price (Last 24h)"
        /\ plot_fails fig = true)
  /\ generate_price_chart (always (series [point 1 5; point 2 7])) "$$" =
       ([HttpGet (chart_url "$$")], Ret None).
Proof.
  split; [reflexivity |]. split; [|reflexivity].
  eexists. split; [reflexivity |]. split; reflexivity.
Qed.

Lemma chart_or_no_chart_witness :
  (exists buf,
      generate_price_chart (always (series [point 1 5; point 2 7])) "bitcoin" =
        ([HttpGet (chart_url "bitcoin")], Ret (Some buf))
      /\ getvalue buf <> []
      /\ take 8 (getvalue buf) = png_signature
      /\ tell buf = 0%nat)
  /\ generate_price_chart (always (JObj [])) "bitcoin" =
       ([HttpGet (chart_url "bitcoin")], Ret None).
Proof.
  split.
  - destruct (proj1 (chart_or_no_chart
                       (always (series [point 1 5; point 2 7])) "bitcoin")
                [("prices", JArr [point 1 5; point 2 7])]
                (JArr [point 1 5; point 2 7])
                [(1, inject_Z 5); (2, inject_Z 7)] eq_refl eq_refl eq_refl
                ltac:(discriminate))
      as (fig & Hdraw & Hok & _).
    apply Hok. injection Hdraw as <-. reflexivity.
  - exact (proj1 (proj2 (proj2 (chart_or_no_chart
                                  (always (JObj [])) "bitcoin")))
             (JObj []) eq_refl eq_refl).
Defined.

Lemma label_to_identifier_witness :
  crypto_id_of "TONCOIN" = "the-open-network"
  /\ crypto_id_of "Bitcoin" = "bitcoin".
Proof.
  split.
  - exact (proj1 (label_to_identifier all_down "TONCOIN") eq_refl).
  - exact (proj1 (proj2 (label_to_identifier all_down "Bitcoin"))
             eq_refl).
Defined.



Lemma no_intent_no_effect_witness :
  crypto_handler (always bitcoin_65000) "Bitcoin" (user_data_of ∅ 7) =
    (([], Ret tt), user_data_of ∅ 7)
  /\ fst (process_update (always bitcoin_65000) 7 (Text "Bitcoin") ∅) = ([], Ret tt)
  /\ forall uid',
       user_data_of (snd (process_update (always bitcoin_65000) 7 (Text "Bitcoin") ∅)) uid' =
         user_data_of ∅ uid'.
Proof.
  exact (no_intent_no_effect (always bitcoin_65000) "Bitcoin" ∅ 7 eq_refl).
Defined.

Lemma transport_failure_shown_as_price_witness :
  fst (crypto_handler all_down "Bitcoin" (with_intent "get_price")) =
    ([checking "Bitcoin"; HttpGet (price_url "bitcoin");
      ReplyText (price_reply "Bitcoin" service_unavailable)], Ret tt)
  /\ price_reply "Bitcoin" service_unavailable <> price_failed "Bitcoin".
Proof.
  exact (transport_failure_shown_as_price all_down "Bitcoin"
           (with_intent "get_price") eq_refl eq_refl).
Defined.

Lemma failed_list_offers_toncoin_only_witness :
  fst (ask_for_crypto all_down "get_price" ∅) =
    ([HttpGet markets_url; ReplyKeyboard select_prompt [["Toncoin"]]], Ret tt).
Proof.
  exact (failed_list_offers_toncoin_only all_down "get_price" ∅
           eq_refl).
Defined.

(** ** The further properties at sample inputs *)

Lemma get_crypto_price_raises_witness :
  exists price_info,
    snd (get_crypto_price (always bitcoin_65000) "bitcoin") = Ret price_info.
Proof.
  exact (proj2 (get_crypto_price_raises (always bitcoin_65000) "bitcoin") eq_refl).
Defined.

Lemma one_request_per_update_witness :
  http_calls (events (dispatch all_down (Command "start") ∅)) = [].
Proof.
  exact (proj2 (one_request_per_update all_down (Command "start") ∅)
           (or_introl eq_refl)).
Defined.

Lemma only_intent_touched_witness :
  snd (dispatch all_down (Command "price") {["language" := "en"]}) !! "language" =
    ({["language" := "en"]} : gmap string string) !! "language".
Proof.
  apply (only_intent_touched all_down (Command "price") {["language" := "en"]}
           "language").
  discriminate.
Defined.

Lemma keyboard_label_round_trip_witness :
  crypto_id_of (Str.title "binancecoin") = "binancecoin".
Proof.
  apply (proj2 (keyboard_label_round_trip "binancecoin" eq_refl));
    [reflexivity | discriminate].
Defined.

Lemma keyboard_from_live_list_witness :
  ask_for_crypto (always five_markets) "get_chart" ∅ =
    (([HttpGet markets_url;
       ReplyKeyboard select_prompt
         (map (fun id => [Str.title id])
            ["bitcoin"; "ethereum"; "tether"; "binancecoin"; "solana"]
          ++ [["Toncoin"]])], Ret tt),
     <["intent" := "get_chart"]> ∅).
Proof.
  exact (proj2 (proj2 (keyboard_from_live_list (always five_markets) "get_chart" ∅
                         [market "bitcoin" "Bitcoin" "btc" 65000;
                          market "ethereum" "Ethereum" "eth" 3200;
                          market "tether" "Tether" "usdt" 1;
                          market "binancecoin" "BNB" "bnb" 580;
                          market "solana" "Solana" "sol" 150]
                         ["bitcoin"; "ethereum"; "tether"; "binancecoin"; "solana"]
                         eq_refl eq_refl))).
Defined.

Lemma toncoin_always_offered_witness :
  exists rows,
    [HttpGet markets_url; ReplyKeyboard select_prompt [["Toncoin"]]] =
      [HttpGet markets_url; ReplyKeyboard select_prompt (rows ++ [["Toncoin"]])].
Proof.
  exact (toncoin_always_offered all_down "get_price" ∅
           [HttpGet markets_url; ReplyKeyboard select_prompt [["Toncoin"]]]
           eq_refl).
Defined.

Lemma foreign_id_no_keyboard_witness :
  ask_for_crypto (always (JArr [JObj [("id", JNum (PyInt 5))]])) "get_price" ∅ =
    (([HttpGet markets_url], Raise AttributeError), <["intent" := "get_price"]> ∅).
Proof.
  exact (foreign_id_no_keyboard (always (JArr [JObj [("id", JNum (PyInt 5))]]))
           "get_price" ∅ (JArr [JObj [("id", JNum (PyInt 5))]]) [JNum (PyInt 5)]
           eq_refl eq_refl eq_refl).
Defined.

Lemma listing_all_or_nothing_witness :
  exists e,
    get_top_5_crypto_prices
      (always (JArr [market "bitcoin" "Bitcoin" "btc" 65000; JObj []])) =
      ([HttpGet markets_url], Raise e)
    /\ top5 (always (JArr [market "bitcoin" "Bitcoin" "btc" 65000; JObj []])) ∅ =
         (([fetching; HttpGet markets_url], Raise e), ∅).
Proof.
  apply (listing_all_or_nothing
           (always (JArr [market "bitcoin" "Bitcoin" "btc" 65000; JObj []])) ∅
           [market "bitcoin" "Bitcoin" "btc" 65000; JObj []] (JObj [])).
  - reflexivity.
  - right. left. reflexivity.
  - reflexivity.
Defined.

Lemma top5_replies_witness :
  fst (top5 all_down ∅) =
    ([fetching; HttpGet markets_url;
      ReplyText (top5_heading +:+ top5_unavailable)], Ret tt)
  /\ fst (top5 (always (JArr [])) ∅) =
       ([fetching; HttpGet markets_url; ReplyText top5_heading], Ret tt).
Proof.
  split.
  - exact (proj1 (proj2 (top5_replies all_down ∅)) eq_refl).
  - exact (proj2 (proj2 (proj2 (top5_replies (always (JArr [])) ∅))) eq_refl).
Defined.

Lemma chart_needs_prices_witness :
  exists items prices,
    delivered (always (series [point 1 5; point 2 7]) (chart_url "bitcoin")) =
      Some (JObj items)
    /\ Py.dict_get items "prices" = Some prices
    /\ match DataFrame prices with
       | Some df =>
           df <> []
           /\ tell {| getvalue := png_signature ++ [x00]; tell := 0 |} = 0%nat
           /\ take 8 (getvalue {| getvalue := png_signature ++ [x00]; tell := 0 |}) =
                png_signature
       | None =>
           plot_foreign "bitcoin" prices =
             Some {| getvalue := png_signature ++ [x00]; tell := 0 |}
       end.
Proof.
  exact (chart_needs_prices (always (series [point 1 5; point 2 7])) "bitcoin"
           {| getvalue := png_signature ++ [x00]; tell := 0 |} eq_refl).
Defined.

Lemma integer_price_shown_witness :
  crypto_handler (always bitcoin_65000) "Bitcoin" (with_intent "get_price") =
    (([checking "Bitcoin"; HttpGet (price_url (crypto_id_of "Bitcoin"));
       ReplyText (price_reply "Bitcoin" ("$" +:+ Str.of_int 65000))], Ret tt),
     delete "intent" (with_intent "get_price")).
Proof.
  exact (integer_price_shown (always bitcoin_65000) "Bitcoin"
           (with_intent "get_price") bitcoin_65000 65000 eq_refl eq_refl eq_refl).
Defined.

Lemma unknown_identifier_reported_witness :
  crypto_handler (always (JObj [])) "Dogecoin" (with_intent "get_price") =
    (([checking "Dogecoin"; HttpGet (price_url (crypto_id_of "Dogecoin"));
       ReplyText (price_failed "Dogecoin")], Ret tt),
     delete "intent" (with_intent "get_price")).
Proof.
  exact (unknown_identifier_reported (always (JObj [])) "Dogecoin"
           (with_intent "get_price") [] eq_refl eq_refl eq_refl).
Defined.

Lemma chart_branch_answers_witness :
  exists reply,
    crypto_handler all_down "Bitcoin" (with_intent "get_chart") =
      (([generating "Bitcoin"; HttpGet (chart_url (crypto_id_of "Bitcoin")); reply],
        Ret tt),
       delete "intent" (with_intent "get_chart"))
    /\ ((exists photo, reply = ReplyPhoto photo (chart_caption "Bitcoin"))
        \/ reply = ReplyText (chart_failed "Bitcoin")).
Proof.
  exact (chart_branch_answers all_down "Bitcoin" (with_intent "get_chart") eq_refl).
Defined.

Lemma commands_and_pending_intent_witness :
  pending (snd (dispatch all_down (Command "top5") (with_intent "get_price"))) =
    Some "get_price".
Proof.
  exact (proj1 (proj2 (commands_and_pending_intent all_down all_down
                         (with_intent "get_price") "get_price" eq_refl))).
Defined.

Lemma error_status_wins_witness :
  snd (get_crypto_price (fun _ => Response 429 (Some bitcoin_65000)) "bitcoin") =
    Ret service_unavailable.
Proof.
  apply (proj1 (proj1 (error_status_wins (fun _ => Response 429 (Some bitcoin_65000))
                         "bitcoin" 429 bitcoin_65000) ltac:(lia))).
  reflexivity.
Defined.

Lemma raised_lookup_leaves_intent_witness :
  crypto_handler (always (JObj [("bitcoin", JNum (PyInt 5))])) "Bitcoin"
    (with_intent "get_price") =
    (([checking "Bitcoin"; HttpGet (price_url (crypto_id_of "Bitcoin"))],
      Raise TypeError), with_intent "get_price")
  /\ http_calls
       (events (crypto_handler all_down "Ethereum"
                  (snd (crypto_handler
                          (always (JObj [("bitcoin", JNum (PyInt 5))])) "Bitcoin"
                          (with_intent "get_price"))))) =
       [HttpGet (price_url (crypto_id_of "Ethereum"))].
Proof.
  exact (raised_lookup_leaves_intent
           (always (JObj [("bitcoin", JNum (PyInt 5))])) all_down
           "Bitcoin" "Ethereum" (with_intent "get_price") TypeError
           eq_refl eq_refl).
Defined.
